(** * SQL-Agentic-Chat: the agent loop, its tools and the chat gateway

    A shallow embedding of [src/sql_agent.py] (the tools, [call_tool],
    [call_model], [should_continue]) and of [src/app.py] (the graph and the
    [/chat] handler), with the properties of the specification stated over
    it.

    The code is Python over four libraries that are not part of the
    repository: sqlparse, sqlite3, LangChain/LangGraph and the language
    model behind them.  What the repository's code observes of them is
    gathered in the class [Library]; every definition below is written over
    an arbitrary [Library], and [Stub.lib] is one concrete instance used to run
    the code on concrete inputs. *)

From Stdlib Require Import String Ascii List ZArith Lia Bool.
From stdpp Require Import base option list strings pretty gmap functions.

Open Scope string_scope.
Open Scope list_scope.

(** ** Python values, exceptions and results *)

(** A raised exception: its class and what [str(e)] gives. *)
Record exn := Exn { exn_class : string; exn_msg : string }.

(** How a Python call ends: it returns a value or raises. *)
Inductive outcome (A : Type) : Type :=
| Returns (a : A)
| Raises (e : exn).
Arguments Returns {A} a.
Arguments Raises {A} e.

(** A value of a SQLite row (REAL and BLOB columns are left out). *)
Inductive sqlval := SqlNull | SqlInt (z : Z) | SqlText (s : string).

Definition row := list sqlval.

(** What a tool function returns: the dict [{"result": rows}],
    [{"error": msg}] or [{"user_input": line}]. *)
Inductive payload :=
| Result (rows : list row)
| Error (msg : string)
| UserInput (line : string).

(** A JSON value of a tool call's [args] mapping. *)
Inductive argval := VStr (s : string) | VNum (z : Z) | VBool (b : bool) | VNull.

(** ToolCallRequest: the entries of [AIMessage.tool_calls]. *)
Record ToolCall := mkToolCall {
  tc_name : string;
  tc_args : gmap string argval;
  tc_id   : string
}.

(** LangChain's messages, as far as the code reads them. *)
Inductive Message :=
| SystemMessage (content : string)
| HumanMessage (content : string)
| AIMessage (content : string) (tool_calls : list ToolCall)
| ToolMessage (content : string) (name : string) (tool_call_id : string).

Definition content (m : Message) : string :=
  match m with
  | SystemMessage c | HumanMessage c | AIMessage c _ | ToolMessage c _ _ => c
  end.

(** [class AgentState(TypedDict)]: [number_of_steps] is declared and never
    written by the code, so it stays absent. *)
Record AgentState := mkState {
  messages : list Message;
  number_of_steps : option Z
}.

(** ** The libraries the code calls *)

Class Library := {
  (** contents of a SQLite database file *)
  DB : Type;
  (** [sqlparse.parse(sql)]: the tuple of statements *)
  statement : Type;
  sqlparse_parse : string -> list statement;
  (** [Statement.get_type()] *)
  get_type : statement -> string;
  (** [sqlite3.connect(path)]: [Some e] when it raises [e] *)
  connect_error : string -> DB -> option exn;
  (** [cursor.execute(sql)] followed by [cursor.fetchall()] on a database:
      the rows or the exception, and the contents afterwards *)
  sqlite3_run : string -> DB -> outcome (list row) * DB;
  (** [str(d)] of a tool's result dict, which [ToolMessage(content=d)]
      stores as its content *)
  py_str : payload -> string;
  py_str_nonempty : forall p, py_str p <> "";
  (** [model.invoke(all_messages, config)], with its retries inside; the
      first argument counts the calls made before this one *)
  model_invoke : nat -> list Message -> outcome (string * list ToolCall);
  (** LangGraph's [recursion_limit]: the number of node executions after
      which a run that has not reached END raises *)
  recursion_limit : nat;
  (** [datetime.isoformat()] of a clock reading *)
  isoformat : nat -> string
}.

(** ** State and effects *)

(** Python code with side effects: a state-and-exception monad over the
    state [S] the code acts on. *)
Definition Eff (S A : Type) : Type := S -> outcome A * S.

Definition ret {S A} (a : A) : Eff S A := fun s => (Returns a, s).

Definition raise {S A} (x : exn) : Eff S A := fun s => (Raises x, s).

Definition bind {S A B} (m : Eff S A) (k : A -> Eff S B) : Eff S B :=
  fun s =>
    match m s with
    | (Returns a, s') => k a s'
    | (Raises x, s') => (Raises x, s')
    end.

(** [try: m except Exception as x: h x] *)
Definition try_except {S A} (m : Eff S A) (h : exn -> Eff S A) : Eff S A :=
  fun s =>
    match m s with
    | (Returns a, s') => (Returns a, s')
    | (Raises x, s') => h x s'
    end.

Definition lift_outcome {S A} (o : outcome A) : Eff S A := fun s => (o, s).

#[global] Instance eff_ret {S} : MRet (Eff S) := fun A => @ret S A.
#[global] Instance eff_bind {S} : MBind (Eff S) := fun A B k m => bind m k.

(** An open [sqlite3.Connection]. *)
Record connection := mkConn { conn_id : nat; conn_path : string }.

(** What the tools and the model act on. *)
Record Env `{Library} := mkEnv {
  files : string -> DB;          (* database contents, by path *)
  handles : list connection;     (* connections opened and not yet closed *)
  connects : nat;                (* calls of sqlite3.connect that returned *)
  console : list string;         (* lines waiting on standard input *)
  llm_calls : nat                (* calls of model.invoke so far *)
}.

(** The code of [sql_agent.py] runs over [Env]. *)
Abbreviation Agent := (Eff Env).

Section Tools.
Context `{Library}.

(** *** sqlite3 *)

Definition sqlite3_connect (path : string) : Agent connection :=
  fun e =>
    match connect_error path (files e path) with
    | Some x => (Raises x, e)
    | None =>
        let c := mkConn (connects e) path in
        (Returns c,
         mkEnv _ (files e) (c :: handles e) (S (connects e))
               (console e) (llm_calls e))
    end.

(** [cursor.execute(sql)]; the rows are those [fetchall] then returns. *)
Definition cursor_execute (c : connection) (sql : string) : Agent (list row) :=
  fun e =>
    let '(r, d) := sqlite3_run sql (files e (conn_path c)) in
    (r, mkEnv _ (<[conn_path c := d]> (files e)) (handles e) (connects e)
              (console e) (llm_calls e)).

Definition cursor_fetchall (rows : list row) : Agent (list row) := ret rows.

Definition conn_close (c : connection) : Agent unit :=
  fun e =>
    (Returns tt,
     mkEnv _ (files e)
           (filter (fun c' => conn_id c' <> conn_id c) (handles e))
           (connects e) (console e) (llm_calls e)).

(** *** str methods *)

Definition lower_ascii (a : ascii) : ascii :=
  let n := nat_of_ascii a in
  if (65 <=? n)%nat && (n <=? 90)%nat then ascii_of_nat (n + 32) else a.

(** [str.lower()] on ASCII text. *)
Fixpoint lower (s : string) : string :=
  match s with
  | EmptyString => EmptyString
  | String a r => String (lower_ascii a) (lower r)
  end.

(** Truth value of a str: [bool(s)]. *)
Definition truthy (s : string) : bool := negb (String.eqb s "").

(** *** The tools of sql_agent.py *)

Definition titanic_db : string := "data/titanic.db".
Definition finance_db : string := "data/aug_personal_transactions_with_UserId.db".

Definition read_only_error : payload :=
  Error "Only read-only queries are supported".

Definition IndexError (msg : string) : exn := Exn "IndexError" msg.
Definition EOFError : exn := Exn "EOFError" "EOF when reading a line".

(** [input(prompt)]: the next line of standard input. *)
Definition input (prompt : string) : Agent string :=
  fun e =>
    match console e with
    | [] => (Raises EOFError, e)
    | line :: rest =>
        (Returns line,
         mkEnv _ (files e) (handles e) (connects e) rest (llm_calls e))
    end.

Definition get_human_input (prompt : string) : Agent payload :=
  try_except
    (user_input ← input (prompt +:+ ": ");
     ret (UserInput user_input))
    (fun e => ret (Error ("Failed to get user input: " +:+ exn_msg e))).

(** [sqlparse.parse(query)[0].get_type().lower()] *)
Definition query_type_of (query : string) : Agent string :=
  match sqlparse_parse query with
  | [] => raise (IndexError "tuple index out of range")
  | s :: _ => ret (lower (get_type s))
  end.

Definition execute_titanic_sql_query (query : string) : Agent payload :=
  query_type ← query_type_of query;
  if String.eqb query_type "select" then
    conn ← sqlite3_connect titanic_db;
    cursor ← cursor_execute conn query;
    result ← cursor_fetchall cursor;
    conn_close conn;;
    ret (Result result)
  else
    ret read_only_error.

Definition execute_finance_sql_query (query : string) : Agent payload :=
  query_type ← query_type_of query;
  if String.eqb query_type "select" then
    conn ← sqlite3_connect finance_db;
    cursor ← cursor_execute conn query;
    result ← cursor_fetchall cursor;
    conn_close conn;;
    ret (Result result)
  else
    ret read_only_error.

Definition get_table_names : Agent payload :=
  conn ← sqlite3_connect finance_db;
  cursor ← cursor_execute conn "SELECT name FROM sqlite_master WHERE type='table';";
  result ← cursor_fetchall cursor;
  conn_close conn;;
  ret (Result result).

Definition get_table_columns (table_name : string) : Agent payload :=
  try_except
    (conn ← sqlite3_connect finance_db;
     cursor ← cursor_execute conn ("PRAGMA table_info(" +:+ table_name +:+ ")");
     result ← cursor_fetchall cursor;
     conn_close conn;;
     ret (Result result))
    (fun e => ret (Error ("Failed to get table columns: " +:+ exn_msg e))).

Definition get_table_row_example (table_name : string) : Agent payload :=
  try_except
    (conn ← sqlite3_connect finance_db;
     cursor ← cursor_execute conn ("SELECT * FROM " +:+ table_name +:+ " LIMIT 1");
     result ← cursor_fetchall cursor;
     conn_close conn;;
     ret (Result result))
    (fun e => ret (Error ("Failed to get table row example: " +:+ exn_msg e))).

End Tools.

(** ** The tool registry and the nodes of the graph *)

Section Nodes.
Context `{Library}.

(** The [args_schema] classes of sql_agent.py each declare one required
    str field; [get_table_names] has none (its schema comes from the empty
    signature). *)
Inductive ArgsSchema :=
| NoArgs
| StrField (field : string).

Definition HumanInputSchema : ArgsSchema := StrField "prompt".
Definition SQLQueryInput : ArgsSchema := StrField "query".
Definition FinanceSQLQueryInput : ArgsSchema := StrField "query".
Definition TableNameInput : ArgsSchema := StrField "table_name".

(** What [@tool(name, args_schema=..., return_direct=True)] builds. *)
Record Tool := mkTool {
  tool_name : string;
  args_schema : ArgsSchema;
  return_direct : bool;
  func : string -> Agent payload
}.

Definition tools : list Tool :=
  [ mkTool "get_human_input" HumanInputSchema true get_human_input;
    mkTool "execute_titanic_sql_query" SQLQueryInput true execute_titanic_sql_query;
    mkTool "execute_finance_sql_query" FinanceSQLQueryInput true execute_finance_sql_query;
    mkTool "get_table_names" NoArgs true (fun _ => get_table_names);
    mkTool "get_table_columns" TableNameInput true get_table_columns;
    mkTool "get_table_row_example" TableNameInput true get_table_row_example ].

(** [{tool.name: tool for tool in tools}] *)
Definition tools_by_name : gmap string Tool :=
  foldl (fun m t => <[tool_name t := t]> m) ∅ tools.

Definition ValidationError (msg : string) : exn := Exn "ValidationError" msg.
Definition KeyError (key : string) : exn := Exn "KeyError" ("'" +:+ key +:+ "'").
Definition AttributeError (msg : string) : exn := Exn "AttributeError" msg.

(** Pydantic's check of [args] against the schema: the field must be
    present and a str; keys the schema does not declare are ignored. *)
Definition validate (schema : ArgsSchema) (args : gmap string argval)
  : outcome string :=
  match schema with
  | NoArgs => Returns ""
  | StrField f =>
      match args !! f with
      | Some (VStr v) => Returns v
      | Some _ => Raises (ValidationError (f +:+ ": Input should be a valid string"))
      | None => Raises (ValidationError (f +:+ ": Field required"))
      end
  end.

(** [tool.invoke(args)]: validation, then the function; the tools are
    built without [handle_validation_error] and [handle_tool_error], so
    both kinds of exception propagate. *)
Definition invoke (t : Tool) (args : gmap string argval) : Agent payload :=
  v ← lift_outcome (validate (args_schema t) args);
  func t v.

(** [state["messages"][-1].tool_calls]: only an AIMessage has the
    attribute. *)
Definition last_tool_calls (state : AgentState) : outcome (list ToolCall) :=
  match list.last (messages state) with
  | None => Raises (IndexError "list index out of range")
  | Some (AIMessage _ tcs) => Returns tcs
  | Some _ => Raises (AttributeError "object has no attribute 'tool_calls'")
  end.

(** [tools_by_name[tool_call["name"]].invoke(tool_call["args"])] *)
Definition dispatch (tool_call : ToolCall) : Agent payload :=
  t ← lift_outcome
        (match tools_by_name !! tc_name tool_call with
         | Some t => Returns t
         | None => Raises (KeyError (tc_name tool_call))
         end);
  invoke t (tc_args tool_call).

(** The body of [call_tool]'s for loop, over the calls still to run. *)
Fixpoint call_tool_loop (calls : list ToolCall) (outputs : list Message)
  : Agent (list Message) :=
  match calls with
  | [] => ret outputs
  | tool_call :: rest =>
      tool_result ← dispatch tool_call;
      call_tool_loop rest
        (outputs ++ [ToolMessage (py_str tool_result)
                                 (tc_name tool_call) (tc_id tool_call)])
  end.

(** [call_tool(state)]; the result is the list under ["messages"]. *)
Definition call_tool (state : AgentState) : Agent (list Message) :=
  calls ← lift_outcome (last_tool_calls state);
  call_tool_loop calls [].

Definition system_message : Message :=
  SystemMessage "You are a helpful AI assistant with access to various tools including:
        - SQL query execution on Titanic dataset
        - SQL query execution on finance transaction dataset
        - Database exploration tools (table names, columns, sample data)

        When users ask questions, use the appropriate tools to provide accurate and helpful responses. 
        For SQL queries, always use the correct database (Titanic or aug_personal_transactions_with_userid) based on the context.
        Be concise but thorough in your explanations.".

(** [call_model(state, config)] *)
Definition call_model (state : AgentState) : Agent (list Message) :=
  fun e =>
    let all_messages := system_message :: messages state in
    let e' := mkEnv _ (files e) (handles e) (connects e) (console e)
                    (S (llm_calls e)) in
    match model_invoke (llm_calls e) all_messages with
    | Returns (c, tcs) => (Returns [AIMessage c tcs], e')
    | Raises x => (Raises x, e')
    end.

(** [should_continue(state)] *)
Definition should_continue (state : AgentState) : outcome string :=
  match last_tool_calls state with
  | Raises x => Raises x
  | Returns [] => Returns "end"
  | Returns (_ :: _) => Returns "continue"
  end.

(** *** The graph of app.py *)

(** The nodes ["llm"] and ["tools"], and LangGraph's END. *)
Inductive node := LLM | TOOLS | END.

(** The [add_messages] reducer of [AgentState.messages]: the update is
    appended (message ids, which it also merges on, are not modelled). *)
Definition add_messages (left right : list Message) : list Message :=
  left ++ right.

(** [workflow.add_node("llm", call_model)], [add_node("tools", call_tool)]:
    running a node applies its update to the state. *)
Definition run_node (n : node) (state : AgentState) : Agent AgentState :=
  match n with
  | LLM =>
      update ← call_model state;
      ret (mkState (add_messages (messages state) update) (number_of_steps state))
  | TOOLS =>
      update ← call_tool state;
      ret (mkState (add_messages (messages state) update) (number_of_steps state))
  | END => ret state
  end.

(** The mapping of [add_conditional_edges]. *)
Definition edge_mapping (decision : string) : outcome node :=
  if String.eqb decision "continue" then Returns TOOLS
  else if String.eqb decision "end" then Returns END
  else Raises (KeyError decision).

(** The node that runs after [n]: the conditional edge after ["llm"], the
    edge [("tools", "llm")]. *)
Definition next_node (n : node) (state : AgentState) : outcome node :=
  match n with
  | LLM =>
      match should_continue state with
      | Returns decision => edge_mapping decision
      | Raises x => Raises x
      end
  | TOOLS => Returns LLM
  | END => Returns END
  end.

End Nodes.

(** ** The chat gateway of app.py *)

(** The gateway also reads the clock: [datetime.now()]. *)
Record World `{Library} := mkWorld { env : Env; clock : nat }.

Abbreviation Gateway := (Eff World).

(** One entry of ["all_messages"]. *)
Record AgentEntry := mkEntry {
  entry_type : string;
  entry_content : string;
  entry_timestamp : string
}.

(** The JSON body of a response. *)
Inductive Body :=
| ErrorBody (error : string)
| ChatBody (response : string) (all_messages : list AgentEntry).

(** What a Flask view returns: [jsonify(body), status] (200 when the
    status is left out). *)
Record Response := mkResponse { status : nat; json : Body }.

(** One entry of ["conversation_history"]; [None] is an absent key. *)
Record HistoryEntry := mkHistory {
  h_type : option string;
  h_content : option string
}.

(** The JSON object [request.get_json()] gives, with the fields typed as
    the interface documents them; [None] is an absent key. *)
Record ChatRequest := mkRequest {
  message : option string;
  conversation_history : option (list HistoryEntry)
}.

Section Gateway.
Context `{Library}.

(** Code of sql_agent.py run from app.py leaves the clock alone. *)
Definition lift {A} (m : Agent A) : Gateway A :=
  fun w =>
    let '(r, e') := m (env w) in
    (r, mkWorld _ e' (clock w)).

(** [datetime.now().isoformat()]; the clock moves on with every reading. *)
Definition datetime_now : Gateway string :=
  fun w => (Returns (isoformat (clock w)), mkWorld _ (env w) (S (clock w))).

Definition GraphRecursionError : exn :=
  Exn "GraphRecursionError" "Recursion limit reached without hitting a stop condition.".

Definition ValueError (msg : string) : exn := Exn "ValueError" msg.

(** How LangChain reads a [(role, content)] tuple. *)
Definition convert_to_message (t : string * string) : outcome Message :=
  let '(role, c) := t in
  if String.eqb role "user" || String.eqb role "human" then Returns (HumanMessage c)
  else if String.eqb role "assistant" || String.eqb role "ai" then Returns (AIMessage c [])
  else if String.eqb role "system" then Returns (SystemMessage c)
  else Raises (ValueError "Unexpected message type").

Fixpoint convert_to_messages (ts : list (string * string))
  : outcome (list Message) :=
  match ts with
  | [] => Returns []
  | t :: rest =>
      match convert_to_message t with
      | Raises x => Raises x
      | Returns m =>
          match convert_to_messages rest with
          | Raises x => Raises x
          | Returns ms => Returns (m :: ms)
          end
      end
  end.

(** The loop behind [graph.stream]: run the node, emit the state to the
    consumer's loop body, go to the next node; [fuel] node executions are
    left before the recursion limit. *)
Fixpoint pregel_loop {A} (fuel : nat) (n : node) (state : AgentState)
    (body : A -> AgentState -> Gateway A) (acc : A) : Gateway A :=
  match n with
  | END => ret acc
  | _ =>
      match fuel with
      | O => raise GraphRecursionError
      | S fuel' =>
          state' ← lift (run_node n state);
          n' ← lift_outcome (next_node n state');
          acc' ← body acc state';
          pregel_loop fuel' n' state' body acc'
      end
  end.

(** [for state in graph.stream(inputs, stream_mode="values"): body], from
    the entry point ["llm"].  In this mode the stream first emits the state
    built from the inputs, then the state after each node.  The loop body
    is [body], threaded over the variables [acc] it assigns. *)
Definition graph_stream {A} (inputs : list (string * string))
    (body : A -> AgentState -> Gateway A) (acc : A) : Gateway A :=
  msgs ← lift_outcome (convert_to_messages inputs);
  let state := mkState (add_messages [] msgs) None in
  acc' ← body acc state;
  pregel_loop recursion_limit LLM state body acc'.

(** The for loop over [conversation_history] in [chat]. *)
Fixpoint convert_history (history : list HistoryEntry)
    (messages : list (string * string)) : outcome (list (string * string)) :=
  match history with
  | [] => Returns messages
  | msg :: rest =>
      match h_type msg with
      | None => Raises (KeyError "type")
      | Some ty =>
          if String.eqb ty "user" then
            match h_content msg with
            | None => Raises (KeyError "content")
            | Some c => convert_history rest (messages ++ [("user", c)])
            end
          else if String.eqb ty "agent" then
            match h_content msg with
            | None => Raises (KeyError "content")
            | Some c => convert_history rest (messages ++ [("assistant", c)])
            end
          else convert_history rest messages
      end
  end.

(** Body of the first [for state in graph.stream(...)] loop; [acc] holds
    [all_messages] and [final_response]. *)
Definition collect (acc : list AgentEntry * string) (state : AgentState)
  : Gateway (list AgentEntry * string) :=
  match list.last (messages state) with
  | Some last_message =>
      if truthy (content last_message) then
        now ← datetime_now;
        ret (fst acc ++ [mkEntry "agent" (content last_message) now],
             content last_message)
      else ret acc
  | None => ret acc
  end.

(** Body of the loop of the retry; [acc] holds [retry_response]. *)
Definition collect_retry (retry_response : string) (state : AgentState)
  : Gateway string :=
  match list.last (messages state) with
  | Some last_message =>
      if truthy (content last_message) then ret (content last_message)
      else ret retry_response
  | None => ret retry_response
  end.

Definition dquote : string := String "034"%char EmptyString.

Definition error_context (user_message error_msg : string) : string :=
  "
The user asked: " +:+ dquote +:+ user_message +:+ dquote +:+ "

But an error occurred: " +:+ error_msg +:+ "

Please provide a helpful response to the user's original question, taking into account this error context. 
If the error suggests a missing dependency or configuration issue, please explain what might be needed.
If it's a tool-specific error, try to answer the question using available information.
".

Definition apology : string :=
  "I encountered an issue while processing your request, but I'll try to help: ".

Definition failure (error_msg : string) : Response :=
  mkResponse 500
    (ErrorBody ("I encountered an error: " +:+ error_msg +:+
                ". Please try rephrasing your question or check if all dependencies are properly installed.")).

(** The [try] block of [chat]. *)
Definition chat_try (data : ChatRequest) : Gateway Response :=
  let user_message := default "" (message data) in
  let conversation_history := default [] (conversation_history data) in
  if negb (truthy user_message) then
    ret (mkResponse 400 (ErrorBody "No message provided"))
  else
    messages ← lift_outcome (convert_history conversation_history []);
    let messages := messages ++ [("user", user_message)] in
    r ← graph_stream messages collect ([], "");
    ret (mkResponse 200 (ChatBody (snd r) (fst r))).

(** The [except Exception as e] block of [chat]. *)
Definition chat_except (user_message : string) (e : exn) : Gateway Response :=
  let error_msg := exn_msg e in
  try_except
    (let retry_inputs := [("user", error_context user_message error_msg)] in
     retry_response ← graph_stream retry_inputs collect_retry "";
     if truthy retry_response then
       now ← datetime_now;
       ret (mkResponse 200
              (ChatBody (apology +:+ retry_response)
                        [mkEntry "agent" retry_response now]))
     else ret (failure error_msg))
    (fun retry_error => ret (failure error_msg)).

(** [chat()], the view of [POST /chat]. *)
Definition chat (data : ChatRequest) : Gateway Response :=
  try_except (chat_try data) (chat_except (default "" (message data))).

End Gateway.

(** ** The states a run streams *)

Section Streamed.
Context `{Library}.

(** The states [graph.stream] emits after the first one, as a list: what a
    consumer that only records the states sees. *)
Fixpoint pregel_states (fuel : nat) (n : node) (state : AgentState)
  : Agent (list AgentState) :=
  match n with
  | END => ret []
  | _ =>
      match fuel with
      | O => raise GraphRecursionError
      | S fuel' =>
          state' ← run_node n state;
          n' ← lift_outcome (next_node n state');
          rest ← pregel_states fuel' n' state';
          ret (state' :: rest)
      end
  end.

Definition streamed_states (inputs : list (string * string))
  : Agent (list AgentState) :=
  msgs ← lift_outcome (convert_to_messages inputs);
  let state := mkState (add_messages [] msgs) None in
  rest ← pregel_states recursion_limit LLM state;
  ret (state :: rest).

(** The last message of each state, where there is one with a content
    that is not empty. *)
Definition last_content (state : AgentState) : option string :=
  match list.last (messages state) with
  | Some m => if truthy (content m) then Some (content m) else None
  | None => None
  end.

Definition last_contents (states : list AgentState) : list string :=
  omap last_content states.



End Streamed.

(** ** A stand-in for the libraries, to run the code on concrete inputs *)

Module Stub.

Definition is_letter (a : ascii) : bool :=
  let n := nat_of_ascii a in
  ((65 <=? n)%nat && (n <=? 90)%nat) || ((97 <=? n)%nat && (n <=? 122)%nat)
  || (n =? 95)%nat.

Definition upper_ascii (a : ascii) : ascii :=
  let n := nat_of_ascii a in
  if (97 <=? n)%nat && (n <=? 122)%nat then ascii_of_nat (n - 32) else a.

Fixpoint skip_spaces (s : string) : string :=
  match s with
  | String a r => if Ascii.is_space a then skip_spaces r else s
  | EmptyString => EmptyString
  end.

(** The leading word of a text and what follows it. *)
Fixpoint split_word (s : string) : string * string :=
  match s with
  | String a r =>
      if is_letter a then let '(w, t) := split_word r in (String a w, t)
      else (EmptyString, s)
  | EmptyString => (EmptyString, EmptyString)
  end.

Fixpoint upper (s : string) : string :=
  match s with
  | EmptyString => EmptyString
  | String a r => String (upper_ascii a) (upper r)
  end.

Definition keywords : list string :=
  ["SELECT"; "INSERT"; "UPDATE"; "DELETE"; "REPLACE"; "MERGE";
   "CREATE"; "DROP"; "ALTER"; "TRUNCATE"].

(** sqlparse splits nothing out of the empty text; any other text is taken
    here as one statement, typed by its first word. *)
Definition parse (sql : string) : list string :=
  match sql with
  | EmptyString => []
  | _ => [sql]
  end.

Definition type_of (stmt : string) : string :=
  let w := upper (fst (split_word (skip_spaces stmt))) in
  if existsb (String.eqb w) keywords then w else "UNKNOWN".

(** A database: its tables, by name, with their rows. *)
Definition tables := list (string * list row).

Fixpoint find_table (t : string) (db : tables) : option (list row) :=
  match db with
  | [] => None
  | (n, rows) :: rest => if String.eqb n t then Some rows else find_table t rest
  end.

Fixpoint strip_prefix (p s : string) : option string :=
  match p, s with
  | EmptyString, _ => Some s
  | String a p', String b s' => if Ascii.eqb a b then strip_prefix p' s' else None
  | String _ _, EmptyString => None
  end.

Definition OperationalError (msg : string) : exn := Exn "OperationalError" msg.

(** The few statements this database engine knows. *)
Definition run (sql : string) (db : tables) : outcome (list row) * tables :=
  match strip_prefix "SELECT * FROM " sql with
  | Some rest =>
      let '(t, tail) := split_word rest in
      match find_table t db with
      | None => (Raises (OperationalError ("no such table: " +:+ t)), db)
      | Some rows =>
          if String.eqb tail "" then (Returns rows, db)
          else if String.eqb tail " LIMIT 1" then (Returns (take 1 rows), db)
          else (Raises (OperationalError "syntax error"), db)
      end
  | None =>
      match strip_prefix "DROP TABLE " sql with
      | Some t =>
          match find_table t db with
          | None => (Raises (OperationalError ("no such table: " +:+ t)), db)
          | Some _ =>
              (Returns [], filter (fun p => negb (String.eqb (fst p) t)) db)
          end
      | None =>
          if String.eqb sql "SELECT name FROM sqlite_master WHERE type='table';"
          then (Returns (map (fun p => [SqlText (fst p)]) db), db)
          else (Raises (OperationalError "syntax error"), db)
      end
  end.

Definition str_sqlval (v : sqlval) : string :=
  match v with
  | SqlNull => "None"
  | SqlInt z => pretty z
  | SqlText s => "'" +:+ s +:+ "'"
  end.

Fixpoint join (sep : string) (l : list string) : string :=
  match l with
  | [] => ""
  | [x] => x
  | x :: rest => x +:+ sep +:+ join sep rest
  end.

Definition str_row (r : row) : string :=
  match r with
  | [v] => "(" +:+ str_sqlval v +:+ ",)"
  | _ => "(" +:+ join ", " (map str_sqlval r) +:+ ")"
  end.

(** [str] of a result dict (quotes inside texts are not escaped). *)
Definition str_payload (p : payload) : string :=
  match p with
  | Result rows => "{'result': [" +:+ join ", " (map str_row rows) +:+ "]}"
  | Error msg => "{'error': '" +:+ msg +:+ "'}"
  | UserInput line => "{'user_input': '" +:+ line +:+ "'}"
  end.

Lemma str_payload_nonempty (p : payload) : str_payload p <> "".
Proof. destruct p; discriminate. Qed.

(** A model that answers its n-th call with the n-th entry of a script. *)
Definition scripted (script : list (outcome (string * list ToolCall)))
    (n : nat) (_ : list Message) : outcome (string * list ToolCall) :=
  match script !! n with
  | Some o => o
  | None => Raises (Exn "ChatGoogleGenerativeAIError" "no response")
  end.

Definition lib (script : list (outcome (string * list ToolCall))) : Library :=
  {| DB := tables;
     statement := string;
     sqlparse_parse := parse;
     get_type := type_of;
     connect_error := fun _ _ => None;
     sqlite3_run := run;
     py_str := str_payload;
     py_str_nonempty := str_payload_nonempty;
     model_invoke := scripted script;
     recursion_limit := 25;
     isoformat := fun t => "T" +:+ pretty t |}.

Definition passengers : tables :=
  [("passengers", [[SqlInt 1; SqlText "Braund"]; [SqlInt 2; SqlText "Cumings"]])].

Definition transactions : tables :=
  [("transactions", [[SqlInt 1; SqlText "rent"]])].

(** Both database files in place, nothing open, no call made yet. *)
Definition env0 script : @Env (lib script) :=
  @mkEnv (lib script)
    (fun path => if String.eqb path titanic_db then passengers
                 else if String.eqb path finance_db then transactions
                 else [])
    [] 0 [] 0.

Definition world0 script : @World (lib script) :=
  @mkWorld (lib script) (env0 script) 0.

(** The same libraries with the database files out of reach:
    [sqlite3.connect] raises on every path. *)
Definition offline (script : list (outcome (string * list ToolCall))) : Library :=
  {| DB := tables;
     statement := string;
     sqlparse_parse := parse;
     get_type := type_of;
     connect_error := fun _ _ => Some (OperationalError "unable to open database file");
     sqlite3_run := run;
     py_str := str_payload;
     py_str_nonempty := str_payload_nonempty;
     model_invoke := scripted script;
     recursion_limit := 25;
     isoformat := fun t => "T" +:+ pretty t |}.

Definition offline_env script : @Env (offline script) :=
  @mkEnv (offline script) (fun _ => []) [] 0 [] 0.

(** Tool calls a model may emit. *)
Definition missing_query : ToolCall :=
  mkToolCall "execute_titanic_sql_query" ∅ "call_1".

Definition list_tables : ToolCall :=
  mkToolCall "get_table_names" ∅ "call_2".

Definition columns_of_nothing : ToolCall :=
  mkToolCall "get_table_columns" {[ "table_name" := VStr "nothing" ]} "call_3".

Definition sample_transactions : ToolCall :=
  mkToolCall "get_table_row_example" {[ "table_name" := VStr "transactions" ]} "call_4".

Definition select_passengers : ToolCall :=
  mkToolCall "execute_titanic_sql_query"
             {[ "query" := VStr "SELECT * FROM passengers" ]} "call_5".

(** The state after the model asked for a batch of calls. *)
Definition asked (calls : list ToolCall) : AgentState :=
  mkState [HumanMessage "How many passengers survived?"; AIMessage "" calls] None.

(** The model asks for the passengers, then answers. *)
Definition answering : list (outcome (string * list ToolCall)) :=
  [Returns ("", [select_passengers]); Returns ("Two passengers.", [])].

(** The model fails on its first call and says nothing on its second. *)
Definition failing_then_silent : list (outcome (string * list ToolCall)) :=
  [Raises (Exn "ChatGoogleGenerativeAIError" "quota exceeded"); Returns ("", [])].

End Stub.

(** * Properties *)

(** Unfolds the monad's operations down to pairs of outcome and state. *)
Ltac eff :=
  unfold mbind, mret, eff_bind, eff_ret, bind, ret, raise, lift_outcome,
    try_except in *.

Section QueryTools.
Context `{Library}.

Lemma query_type_of_parsed query s rest e :
  sqlparse_parse query = s :: rest ->
  query_type_of query e = (Returns (lower (get_type s)), e).
Proof. intros Hp. unfold query_type_of. now rewrite Hp. Qed.

Lemma query_type_of_empty query e :
  sqlparse_parse query = [] ->
  query_type_of query e = (Raises (IndexError "tuple index out of range"), e).
Proof. intros Hp. unfold query_type_of. now rewrite Hp. Qed.

(** C1. A text whose statement type, as sqlparse classifies it, is not
    SELECT gets the payload [{"error": "Only read-only queries are
    supported"}] from both query tools, and the environment is the one the
    call started in: no connection was opened, the databases are as they
    were. *)
Theorem non_select_is_rejected (query : string) (s : statement)
    (rest : list statement) (e : Env) :
  sqlparse_parse query = s :: rest ->
  lower (get_type s) <> "select" ->
  execute_titanic_sql_query query e
    = (Returns (Error "Only read-only queries are supported"), e)
  /\ execute_finance_sql_query query e
    = (Returns (Error "Only read-only queries are supported"), e).
Proof.
  intros Hp Hty.
  assert (Hneq : String.eqb (lower (get_type s)) "select" = false)
    by now apply String.eqb_neq.
  unfold execute_titanic_sql_query, execute_finance_sql_query.
  eff. rewrite (query_type_of_parsed _ _ _ _ Hp), Hneq. now split.
Qed.

(** A text sqlparse finds no statement in makes both tools raise. *)
Lemma unparsable_raises (query : string) (e : Env) :
  sqlparse_parse query = [] ->
  execute_titanic_sql_query query e
    = (Raises (IndexError "tuple index out of range"), e)
  /\ execute_finance_sql_query query e
    = (Raises (IndexError "tuple index out of range"), e).
Proof.
  intros Hp. unfold execute_titanic_sql_query, execute_finance_sql_query.
  eff. now rewrite (query_type_of_empty _ _ Hp).
Qed.

(** The environment a SELECT leaves when the connection opens and
    [cursor.execute] raises: the handle of the connection is still there. *)
Lemma select_failure_leaks (query : string) (s : statement)
    (rest : list statement) (e : Env) (x : exn) (d : DB) :
  sqlparse_parse query = s :: rest ->
  lower (get_type s) = "select" ->
  connect_error titanic_db (files e titanic_db) = None ->
  sqlite3_run query (files e titanic_db) = (Raises x, d) ->
  exists e',
    execute_titanic_sql_query query e = (Raises x, e')
    /\ handles e' = mkConn (connects e) titanic_db :: handles e.
Proof.
  intros Hp Hty Hc Hr.
  unfold execute_titanic_sql_query. eff.
  rewrite (query_type_of_parsed _ _ _ _ Hp), Hty. simpl.
  unfold sqlite3_connect. rewrite Hc. unfold cursor_execute. simpl.
  rewrite Hr. eexists. split; [reflexivity | reflexivity].
Qed.

(** No open handle carries the identifier the next connection gets. *)
Definition fresh_ids (e : Env) : Prop :=
  Forall (fun c => conn_id c <> connects e) (handles e).

(** On the path where nothing raises, the connection the call opened is
    closed again before it returns. *)
Lemma select_success_closes (query : string) (s : statement)
    (rest : list statement) (e : Env) (rows : list row) (d : DB) :
  sqlparse_parse query = s :: rest ->
  lower (get_type s) = "select" ->
  connect_error titanic_db (files e titanic_db) = None ->
  sqlite3_run query (files e titanic_db) = (Returns rows, d) ->
  fresh_ids e ->
  exists e',
    execute_titanic_sql_query query e = (Returns (Result rows), e')
    /\ handles e' = handles e
    /\ connects e' = S (connects e).
Proof.
  intros Hp Hty Hc Hr Hfresh.
  unfold execute_titanic_sql_query. eff.
  rewrite (query_type_of_parsed _ _ _ _ Hp), Hty. simpl.
  unfold sqlite3_connect. rewrite Hc. unfold cursor_execute. simpl.
  rewrite Hr. unfold cursor_fetchall, conn_close. eff. simpl.
  eexists. split; [reflexivity |]. simpl. split; [| reflexivity].
  rewrite filter_cons_False by (simpl; intros Hne; now apply Hne).
  unfold fresh_ids in Hfresh. induction Hfresh as [| c l Hc' _ IH].
  - reflexivity.
  - rewrite filter_cons_True by exact Hc'. now rewrite IH.
Qed.

End QueryTools.

(** C1 at a DROP statement, on the stand-in libraries. *)
Lemma non_select_is_rejected_witness :
  @execute_titanic_sql_query (Stub.lib []) "DROP TABLE passengers" (Stub.env0 [])
    = (Returns (Error "Only read-only queries are supported"), Stub.env0 [])
  /\ @execute_finance_sql_query (Stub.lib []) "DROP TABLE passengers" (Stub.env0 [])
    = (Returns (Error "Only read-only queries are supported"), Stub.env0 []).
Proof.
  apply (@non_select_is_rejected (Stub.lib []) "DROP TABLE passengers"
           "DROP TABLE passengers" [] (Stub.env0 [])).
  - reflexivity.
  - vm_compute. discriminate.
Defined.

(** ** The agent loop *)

Section Loop.
Context `{Library}.

(** The model's node always leaves an AIMessage last. *)
Lemma llm_node_appends_ai (state state' : AgentState) (e e' : Env) :
  run_node LLM state e = (Returns state', e') ->
  exists c tcs, messages state' = messages state ++ [AIMessage c tcs].
Proof.
  unfold run_node, call_model. eff.
  destruct (model_invoke (llm_calls e) (system_message :: messages state))
    as [[c tcs] | x]; intros Heq; inversion Heq; subst; simpl.
  now exists c, tcs.
Qed.

Lemma last_tool_calls_ai (state : AgentState) c tcs :
  list.last (messages state) = Some (AIMessage c tcs) ->
  last_tool_calls state = Returns tcs.
Proof. intros Hl. unfold last_tool_calls. now rewrite Hl. Qed.

(** C2. After the model's node, with its AIMessage last in the state: the
    run goes to END exactly when that message carries no tool call, and to
    the tools' node otherwise; [should_continue] answers from the tool
    calls alone, so two states whose last messages carry the same calls get
    the same answer whatever their contents; and from the tools' node the
    run goes back to the model. *)
Theorem done_iff_no_tool_calls (state : AgentState) (c : string)
    (tcs : list ToolCall) :
  list.last (messages state) = Some (AIMessage c tcs) ->
  (next_node LLM state = Returns END <-> tcs = [])
  /\ (tcs <> [] -> next_node LLM state = Returns TOOLS)
  /\ should_continue state
     = Returns (match tcs with [] => "end" | _ :: _ => "continue" end)
  /\ (forall state2 c2,
        list.last (messages state2) = Some (AIMessage c2 tcs) ->
        should_continue state2 = should_continue state)
  /\ (forall state2, next_node TOOLS state2 = Returns LLM).
Proof.
  intros Hl.
  assert (Hsc : should_continue state
                = Returns (match tcs with [] => "end" | _ :: _ => "continue" end)).
  { unfold should_continue. rewrite (last_tool_calls_ai _ _ _ Hl).
    now destruct tcs. }
  repeat split.
  - unfold next_node. rewrite Hsc. destruct tcs; [reflexivity | discriminate].
  - intros ->. unfold next_node. now rewrite Hsc.
  - intros Hne. unfold next_node. rewrite Hsc. destruct tcs; [easy | reflexivity].
  - exact Hsc.
  - intros state2 c2 Hl2. rewrite Hsc. unfold should_continue.
    rewrite (last_tool_calls_ai _ _ _ Hl2). now destruct tcs.
Qed.

(** The message a call is answered by: a ToolMessage with the call's name
    and identifier, its content the [str] of some payload. *)
Definition answers (call : ToolCall) (m : Message) : Prop :=
  exists p, m = ToolMessage (py_str p) (tc_name call) (tc_id call).

Lemma call_tool_loop_returns (calls : list ToolCall) :
  forall outputs e outs e',
    call_tool_loop calls outputs e = (Returns outs, e') ->
    exists new, outs = outputs ++ new /\ Forall2 answers calls new.
Proof.
  induction calls as [| call rest IH]; intros outputs e outs e'; simpl; eff.
  - intros Heq. inversion Heq; subst. exists []. split.
    + now rewrite app_nil_r.
    + constructor.
  - destruct (dispatch call e) as [[p | x] e1]; [| discriminate].
    intros Heq. apply IH in Heq as (new & -> & Hall).
    exists (ToolMessage (py_str p) (tc_name call) (tc_id call) :: new). split.
    + now rewrite <- app_assoc.
    + constructor; [now exists p | exact Hall].
Qed.

Lemma call_tool_loop_raises (calls : list ToolCall) :
  forall outputs e x e',
    call_tool_loop calls outputs e = (Raises x, e') ->
    exists call e1, call ∈ calls /\ dispatch call e1 = (Raises x, e').
Proof.
  induction calls as [| call rest IH]; intros outputs e x e'; simpl; eff.
  - discriminate.
  - destruct (dispatch call e) as [[p | x'] e1] eqn:Hd.
    + intros Heq. apply IH in Heq as (call' & e2 & Hin & Hd').
      exists call', e2. split; [now right | exact Hd'].
    + intros Heq. inversion Heq; subst.
      exists call, e. split; [now left | exact Hd].
Qed.

End Loop.

(** ** Tool dispatch *)

Section Dispatch.
Context `{Library}.

(** What one call of a batch does, read off line 141 of sql_agent.py: the
    tool is looked up under the name of the call, the arguments are checked
    against its schema, the function of the tool is run on them. *)
Definition call_outcome (call : ToolCall) (e : Env) : outcome payload * Env :=
  match tools_by_name !! tc_name call with
  | None => (Raises (KeyError (tc_name call)), e)
  | Some t =>
      match validate (args_schema t) (tc_args call) with
      | Raises x => (Raises x, e)
      | Returns v => func t v e
      end
  end.

(** What a batch does, call by call: each call runs in the environment the
    calls before it left; the first call that raises ends the batch with
    its exception, in the environment it left, and the calls after it are
    not run. *)
Fixpoint batch_outcome (calls : list ToolCall) (e : Env)
  : outcome (list payload) * Env :=
  match calls with
  | [] => (Returns [], e)
  | call :: rest =>
      match call_outcome call e with
      | (Raises x, e1) => (Raises x, e1)
      | (Returns p, e1) =>
          match batch_outcome rest e1 with
          | (Raises x, e2) => (Raises x, e2)
          | (Returns ps, e2) => (Returns (p :: ps), e2)
          end
      end
  end.

(** The ToolMessage of a call that returned the payload [p]. *)
Definition tool_message (call : ToolCall) (p : payload) : Message :=
  ToolMessage (py_str p) (tc_name call) (tc_id call).

Definition tool_messages (calls : list ToolCall) (ps : list payload)
  : list Message :=
  zip_with tool_message calls ps.

Lemma dispatch_call_outcome (call : ToolCall) (e : Env) :
  dispatch call e = call_outcome call e.
Proof.
  unfold dispatch, invoke, call_outcome. eff.
  destruct (tools_by_name !! tc_name call) as [t |]; [| reflexivity].
  now destruct (validate (args_schema t) (tc_args call)).
Qed.

(** The loop of [call_tool] against the batch, call by call. *)
Lemma call_tool_loop_batch (calls : list ToolCall) :
  forall outputs e,
    call_tool_loop calls outputs e
    = match batch_outcome calls e with
      | (Returns ps, e') => (Returns (outputs ++ tool_messages calls ps), e')
      | (Raises x, e') => (Raises x, e')
      end.
Proof.
  induction calls as [| call rest IH]; intros outputs e.
  - simpl. eff. now rewrite app_nil_r.
  - cbn [call_tool_loop batch_outcome]. eff. rewrite dispatch_call_outcome.
    destruct (call_outcome call e) as [[p | x] e1]; [| reflexivity].
    rewrite IH. destruct (batch_outcome rest e1) as [[ps | x] e2]; [| reflexivity].
    unfold tool_messages. cbn [zip_with]. now rewrite <- app_assoc.
Qed.

Lemma batch_outcome_length (calls : list ToolCall) :
  forall e ps e', batch_outcome calls e = (Returns ps, e') -> length ps = length calls.
Proof.
  induction calls as [| call rest IH]; intros e ps e'; cbn [batch_outcome].
  - intros Heq. now inversion Heq.
  - destruct (call_outcome call e) as [[p | x] e1]; [| discriminate].
    destruct (batch_outcome rest e1) as [[qs | x] e2] eqn:Hrest; [| discriminate].
    intros Heq. inversion Heq; subst. simpl. f_equal. eapply IH, Hrest.
Qed.

Lemma batch_outcome_app (pre rest : list ToolCall) :
  forall e,
    batch_outcome (pre ++ rest) e
    = match batch_outcome pre e with
      | (Raises x, e1) => (Raises x, e1)
      | (Returns ps, e1) =>
          match batch_outcome rest e1 with
          | (Raises x, e2) => (Raises x, e2)
          | (Returns qs, e2) => (Returns (ps ++ qs), e2)
          end
      end.
Proof.
  induction pre as [| call pre IH]; intros e.
  - simpl. now destruct (batch_outcome rest e) as [[qs | x] e2].
  - cbn [app batch_outcome].
    destruct (call_outcome call e) as [[p | x] e1]; [| reflexivity].
    rewrite IH. destruct (batch_outcome pre e1) as [[ps | x] e2]; [| reflexivity].
    now destruct (batch_outcome rest e2) as [[qs | x] e3].
Qed.

(** A batch that raises has a first call that raises. *)
Lemma batch_outcome_raises (calls : list ToolCall) :
  forall e x e',
    batch_outcome calls e = (Raises x, e') ->
    exists pre call post ps e1,
      calls = pre ++ call :: post
      /\ batch_outcome pre e = (Returns ps, e1)
      /\ call_outcome call e1 = (Raises x, e').
Proof.
  induction calls as [| call rest IH]; intros e x e'; cbn [batch_outcome].
  - discriminate.
  - destruct (call_outcome call e) as [[p | x'] e1] eqn:Hc.
    + destruct (batch_outcome rest e1) as [[qs | x''] e2] eqn:Hrest; [discriminate |].
      intros Heq. inversion Heq; subst.
      destruct (IH _ _ _ Hrest) as (pre & c & post & ps & e3 & -> & Hpre & Hcall).
      exists (call :: pre), c, post, (p :: ps), e3. repeat split; [| exact Hcall].
      cbn [batch_outcome]. now rewrite Hc, Hpre.
    + intros Heq. inversion Heq; subst.
      exists [], call, rest, [], e. repeat split. exact Hc.
Qed.

Lemma tool_messages_answer (calls : list ToolCall) :
  forall ps, length ps = length calls -> Forall2 answers calls (tool_messages calls ps).
Proof.
  induction calls as [| call rest IH]; intros [| p ps] Hlen; try discriminate.
  - constructor.
  - unfold tool_messages. cbn [zip_with]. constructor.
    + now exists p.
    + apply IH. simpl in Hlen. lia.
Qed.

Lemma run_node_tools_batch (state : AgentState) (calls : list ToolCall) (e : Env) :
  last_tool_calls state = Returns calls ->
  run_node TOOLS state e
  = match batch_outcome calls e with
    | (Returns ps, e') =>
        (Returns (mkState (messages state ++ tool_messages calls ps)
                          (number_of_steps state)), e')
    | (Raises x, e') => (Raises x, e')
    end.
Proof.
  intros Hl. unfold run_node, call_tool, add_messages. eff.
  rewrite Hl, call_tool_loop_batch.
  now destruct (batch_outcome calls e) as [[ps | x] e'].
Qed.

(** The [tool_call_id] of a ToolMessage. *)
Definition tool_call_id_of (m : Message) : option string :=
  match m with
  | ToolMessage _ _ id => Some id
  | _ => None
  end.

Lemma tool_messages_ids (calls : list ToolCall) :
  forall ps,
    length ps = length calls ->
    map tool_call_id_of (tool_messages calls ps) = map (fun c => Some (tc_id c)) calls.
Proof.
  induction calls as [| call rest IH]; intros [| p ps] Hlen; try discriminate.
  - reflexivity.
  - unfold tool_messages. cbn [zip_with map tool_message tool_call_id_of].
    f_equal. apply IH. simpl in Hlen. lia.
Qed.

(** C3 (amended). Take the batch of the last AIMessage call by call, each
    call looked up, validated and run in the environment the calls before
    it left.  When every call returns, the tools' node returns, in the
    environment the last call left, the state with exactly one ToolMessage
    per call appended: the i-th carries the [str] of the payload, the name
    and the identifier of the i-th call.  When some call raises, the node
    raises the exception of the first call that does, in the environment
    that call left: no state comes back, so nothing is appended, and the
    calls after it are not run. *)
Theorem tool_results_match_calls (state : AgentState) (calls : list ToolCall)
    (e : Env) :
  last_tool_calls state = Returns calls ->
  match batch_outcome calls e with
  | (Returns ps, e') =>
      run_node TOOLS state e
      = (Returns (mkState (messages state ++ tool_messages calls ps)
                          (number_of_steps state)), e')
      /\ length (tool_messages calls ps) = length calls
      /\ map tool_call_id_of (tool_messages calls ps)
         = map (fun c => Some (tc_id c)) calls
      /\ Forall2 answers calls (tool_messages calls ps)
  | (Raises x, e') =>
      run_node TOOLS state e = (Raises x, e')
      /\ exists pre call post ps e1,
           calls = pre ++ call :: post
           /\ batch_outcome pre e = (Returns ps, e1)
           /\ call_outcome call e1 = (Raises x, e')
  end.
Proof.
  intros Hl. pose proof (run_node_tools_batch state calls e Hl) as Hrun.
  destruct (batch_outcome calls e) as [[ps | x] e'] eqn:Hb.
  - pose proof (batch_outcome_length _ _ _ _ Hb) as Hlen.
    split; [exact Hrun |]. split; [| split].
    + erewrite Forall2_length; [reflexivity |].
      apply Forall2_flip. now apply tool_messages_answer.
    + now apply tool_messages_ids.
    + now apply tool_messages_answer.
  - split; [exact Hrun |]. now apply batch_outcome_raises.
Qed.

Lemma lookup_get_human_input :
  tools_by_name !! "get_human_input"
  = Some (mkTool "get_human_input" HumanInputSchema true get_human_input).
Proof. reflexivity. Qed.

Lemma lookup_get_table_columns :
  tools_by_name !! "get_table_columns"
  = Some (mkTool "get_table_columns" TableNameInput true get_table_columns).
Proof. reflexivity. Qed.

Lemma lookup_get_table_row_example :
  tools_by_name !! "get_table_row_example"
  = Some (mkTool "get_table_row_example" TableNameInput true get_table_row_example).
Proof. reflexivity. Qed.

(** A function wrapped in [try ... except Exception as e: return ...]
    returns on every input. *)
Lemma try_except_returns {A} (m : Agent A) (h : exn -> A) (e : Env) :
  exists a e', try_except m (fun x => ret (h x)) e = (Returns a, e').
Proof.
  unfold try_except, ret. destruct (m e) as [[a | x] e']; eauto.
Qed.

Lemma caught_tool_returns (name : string) (t : Tool) (v : string) (e : Env) :
  name ∈ ["get_human_input"; "get_table_columns"; "get_table_row_example"] ->
  tools_by_name !! name = Some t ->
  exists p e', func t v e = (Returns p, e').
Proof.
  intros Hname Ht.
  repeat (apply elem_of_cons in Hname as [Hname | Hname]);
    [ rewrite Hname, lookup_get_human_input in Ht
    | rewrite Hname, lookup_get_table_columns in Ht
    | rewrite Hname, lookup_get_table_row_example in Ht
    | now apply elem_of_nil in Hname ];
    injection Ht as <-; simpl; apply try_except_returns.
Qed.

Lemma tool_messages_app (pre post : list ToolCall) (call : ToolCall)
    (ps qs : list payload) (p : payload) :
  length ps = length pre ->
  tool_messages (pre ++ call :: post) (ps ++ p :: qs)
  = tool_messages pre ps ++ tool_message call p :: tool_messages post qs.
Proof.
  intros Hlen. unfold tool_messages. now rewrite zip_with_app by (symmetry; exact Hlen).
Qed.

(** C4 (amended). Take a call of a batch whose tool is registered, after
    calls that returned.  If its function returns an error payload, that
    payload is the content of the ToolMessage of the call, the calls after
    it are run from the environment it left and, when they return, the
    node returns the messages of the whole batch in order and the run goes
    on to the model.  The three tools whose body is wrapped in try/except
    return a payload on every valid argument, so a failure inside them
    never ends the batch.  If the arguments of the call fail the schema of
    its tool, the node raises that validation error in the environment the
    calls before it left: the function is not run, no ToolMessage of the
    batch is appended, the calls after it are not run and the run of the
    graph ends with the exception. *)
Theorem tool_failures (state : AgentState) (pre post : list ToolCall)
    (call : ToolCall) (t : Tool) (e e1 : Env) (ps : list payload) :
  last_tool_calls state = Returns (pre ++ call :: post) ->
  batch_outcome pre e = (Returns ps, e1) ->
  tools_by_name !! tc_name call = Some t ->
  (forall v msg e2,
     validate (args_schema t) (tc_args call) = Returns v ->
     func t v e1 = (Returns (Error msg), e2) ->
     match batch_outcome post e2 with
     | (Returns qs, e3) =>
         run_node TOOLS state e
         = (Returns
              (mkState
                 (messages state ++ tool_messages pre ps
                  ++ ToolMessage (py_str (Error msg)) (tc_name call) (tc_id call)
                     :: tool_messages post qs)
                 (number_of_steps state)), e3)
         /\ next_node TOOLS
              (mkState
                 (messages state ++ tool_messages pre ps
                  ++ ToolMessage (py_str (Error msg)) (tc_name call) (tc_id call)
                     :: tool_messages post qs)
                 (number_of_steps state))
            = Returns LLM
     | (Raises x, e3) => run_node TOOLS state e = (Raises x, e3)
     end)
  /\ (tc_name call ∈ ["get_human_input"; "get_table_columns"; "get_table_row_example"] ->
      forall v,
        validate (args_schema t) (tc_args call) = Returns v ->
        exists p e2,
          func t v e1 = (Returns p, e2)
          /\ call_outcome call e1 = (Returns p, e2))
  /\ (forall x,
        validate (args_schema t) (tc_args call) = Raises x ->
        run_node TOOLS state e = (Raises x, e1)
        /\ forall fuel, pregel_states (S fuel) TOOLS state e = (Raises x, e1)).
Proof.
  intros Hl Hpre Ht.
  pose proof (run_node_tools_batch state _ e Hl) as Hrun.
  rewrite batch_outcome_app, Hpre in Hrun. cbn [batch_outcome] in Hrun.
  unfold call_outcome in Hrun. rewrite Ht in Hrun.
  split; [| split].
  - intros v msg e2 Hv Hf. rewrite Hv, Hf in Hrun.
    destruct (batch_outcome post e2) as [[qs | x] e3]; [| exact Hrun].
    rewrite tool_messages_app in Hrun by (eapply batch_outcome_length, Hpre).
    split; [exact Hrun | reflexivity].
  - intros Hname v Hv.
    destruct (caught_tool_returns _ t v e1 Hname Ht) as (p & e2 & Hf).
    exists p, e2. split; [exact Hf |].
    unfold call_outcome. now rewrite Ht, Hv.
  - intros x Hv. rewrite Hv in Hrun. split; [exact Hrun |].
    intros fuel. cbn [pregel_states]. eff. now rewrite Hrun.
Qed.

End Dispatch.

(** ** Streaming a run to a loop body *)

Section Streaming.
Context `{Library}.

(** A loop body that always returns and acts on the clock alone: [step]
    gives the new variables and the new clock reading. *)
Definition clock_only {A} (body : A -> AgentState -> Gateway A)
    (step : A -> AgentState -> nat -> A * nat) : Prop :=
  forall acc state w,
    body acc state w
    = (Returns (fst (step acc state (clock w))),
       mkWorld _ (env w) (snd (step acc state (clock w)))).

Fixpoint fold_states {A} (step : A -> AgentState -> nat -> A * nat)
    (acc : A) (t : nat) (states : list AgentState) : A * nat :=
  match states with
  | [] => (acc, t)
  | state :: rest =>
      fold_states step (fst (step acc state t)) (snd (step acc state t)) rest
  end.

(** Running the loop with such a body is folding the body over the states
    the run streams; when the run raises, so does the loop, from the same
    environment. *)
Lemma pregel_loop_fold {A} (body : A -> AgentState -> Gateway A) step :
  clock_only body step ->
  forall fuel n state acc w,
    match pregel_states fuel n state (env w) with
    | (Returns states, e') =>
        pregel_loop fuel n state body acc w
        = (Returns (fst (fold_states step acc (clock w) states)),
           mkWorld _ e' (snd (fold_states step acc (clock w) states)))
    | (Raises x, e') =>
        exists t, pregel_loop fuel n state body acc w = (Raises x, mkWorld _ e' t)
    end.
Proof.
  intros Hbody fuel. induction fuel as [| fuel IH]; intros n state acc w.
  - destruct n, w; simpl; eff; eauto.
  - destruct n; [| | destruct w; reflexivity].
    all: cbn [pregel_states pregel_loop]; eff; unfold lift;
      (match goal with |- context [run_node ?m ?s ?e] =>
         destruct (run_node m s e) as [[state' | x] e1] end);
      [| eauto]; cbn [clock env];
      (match goal with |- context [next_node ?m ?s] =>
         destruct (next_node m s) as [n' | x] end);
      [| eauto]; rewrite Hbody; cbn [clock env];
      specialize (IH n' state' (fst (step acc state' (clock w)))
                    (mkWorld _ e1 (snd (step acc state' (clock w)))));
      cbn [clock env] in IH;
      destruct (pregel_states fuel n' state' e1) as [[states | x] e2];
      exact IH.
Qed.

Lemma graph_stream_fold {A} (body : A -> AgentState -> Gateway A) step :
  clock_only body step ->
  forall inputs acc w,
    match streamed_states inputs (env w) with
    | (Returns states, e') =>
        graph_stream inputs body acc w
        = (Returns (fst (fold_states step acc (clock w) states)),
           mkWorld _ e' (snd (fold_states step acc (clock w) states)))
    | (Raises x, e') =>
        exists t, graph_stream inputs body acc w = (Raises x, mkWorld _ e' t)
    end.
Proof.
  intros Hbody inputs acc w. unfold streamed_states, graph_stream. eff.
  destruct (convert_to_messages inputs) as [msgs | x].
  - rewrite Hbody. cbn [clock env].
    set (state := mkState (add_messages [] msgs) None).
    pose proof (pregel_loop_fold body step Hbody recursion_limit LLM state
                  (fst (step acc state (clock w)))
                  (mkWorld _ (env w) (snd (step acc state (clock w))))) as Hl.
    cbn [clock env] in Hl.
    destruct (pregel_states recursion_limit LLM state (env w)) as [[states | x] e1];
      exact Hl.
  - exists (clock w). now destruct w.
Qed.


Definition collect_retry_step (acc : string) (state : AgentState) (t : nat)
  : string * nat :=
  match list.last (messages state) with
  | Some m => if truthy (content m) then (content m, t) else (acc, t)
  | None => (acc, t)
  end.


Lemma collect_retry_clock_only : clock_only collect_retry collect_retry_step.
Proof.
  intros acc state w. unfold collect_retry, collect_retry_step. eff.
  destruct (list.last (messages state)) as [m |]; [| now destruct w].
  destruct (truthy (content m)); now destruct w.
Qed.

Lemma last_contents_cons (state : AgentState) (rest : list AgentState) :
  last_contents (state :: rest)
  = match last_content state with
    | Some c => c :: last_contents rest
    | None => last_contents rest
    end.
Proof. reflexivity. Qed.


Lemma collect_retry_step_content acc state t :
  collect_retry_step acc state t
  = (default acc (last_content state), t).
Proof.
  unfold collect_retry_step, last_content.
  destruct (list.last (messages state)) as [m |]; [| reflexivity].
  now destruct (truthy (content m)).
Qed.


Lemma fold_collect_retry (states : list AgentState) :
  forall acc t,
    fold_states collect_retry_step acc t states
    = (default acc (list.last (last_contents states)), t).
Proof.
  induction states as [| state rest IH]; intros acc t.
  - reflexivity.
  - cbn [fold_states]. rewrite IH, collect_retry_step_content, last_contents_cons.
    destruct (last_content state) as [c |]; [| reflexivity].
    cbn [fst snd default]. rewrite last_cons.
    now destruct (list.last (last_contents rest)).
Qed.

End Streaming.

(** ** The chat gateway *)

Section Chat.
Context `{Library}.

Lemma truthy_true (s : string) : s <> "" -> truthy s = true.
Proof. intros Hs. unfold truthy. now rewrite (proj2 (String.eqb_neq s "") Hs). Qed.

Lemma truthy_nonempty (s : string) : truthy s = true -> s <> "".
Proof. unfold truthy. intros Ht ->. discriminate. Qed.

(** C7. A request whose message is absent or empty is answered 400 with
    [{"error": "No message provided"}], from a world that is left as it
    was: no node of the graph ran, the model was not called. *)
Theorem empty_message_is_400 (data : ChatRequest) (w : World) :
  message data = None \/ message data = Some "" ->
  chat data w = (Returns (mkResponse 400 (ErrorBody "No message provided")), w).
Proof.
  intros [Hm | Hm]; unfold chat, chat_try, try_except; now rewrite Hm.
Qed.

Lemma convert_history_drop (h1 h2 : list HistoryEntry) (msg : HistoryEntry)
    (ty : string) :
  h_type msg = Some ty -> ty <> "user" -> ty <> "agent" ->
  forall acc, convert_history (h1 ++ msg :: h2) acc = convert_history (h1 ++ h2) acc.
Proof.
  intros Hty Hu Ha. induction h1 as [| m h1 IH]; intros acc.
  - simpl. rewrite Hty.
    now rewrite (proj2 (String.eqb_neq _ _) Hu), (proj2 (String.eqb_neq _ _) Ha).
  - simpl. destruct (h_type m) as [ty' |]; [| reflexivity].
    destruct (String.eqb ty' "user").
    + destruct (h_content m); [apply IH | reflexivity].
    + destruct (String.eqb ty' "agent"); [| apply IH].
      destruct (h_content m); [apply IH | reflexivity].
Qed.

(** C10. A history entry whose type is neither "user" nor "agent" changes
    nothing: the converted history, and so the whole answer of [chat], are
    those of the request without the entry; the entry raises nothing, its
    content is not even read. *)
Theorem unknown_history_type_is_dropped (h1 h2 : list HistoryEntry)
    (msg : HistoryEntry) (ty : string) :
  h_type msg = Some ty -> ty <> "user" -> ty <> "agent" ->
  (forall acc,
     convert_history (h1 ++ msg :: h2) acc = convert_history (h1 ++ h2) acc)
  /\ (forall m w,
        chat (mkRequest m (Some (h1 ++ msg :: h2))) w
        = chat (mkRequest m (Some (h1 ++ h2))) w).
Proof.
  intros Hty Hu Ha. split.
  - now apply convert_history_drop with ty.
  - intros m w. unfold chat, chat_try.
    cbn [message conversation_history from_option id].
    now rewrite (convert_history_drop h1 h2 msg ty Hty Hu Ha).
Qed.

Lemma convert_to_messages_last (l : list (string * string)) (c : string) :
  forall msgs,
    convert_to_messages (l ++ [("user", c)]) = Returns msgs ->
    list.last msgs = Some (HumanMessage c).
Proof.
  induction l as [| t l IH]; intros msgs.
  - simpl. intros Heq. now inversion Heq.
  - cbn [app convert_to_messages].
    destruct (convert_to_message t) as [m | x]; [| discriminate].
    destruct (convert_to_messages (l ++ [("user", c)])) as [ms | x]; [| discriminate].
    intros Heq. inversion Heq; subst. specialize (IH ms eq_refl).
    rewrite last_cons. now rewrite IH.
Qed.

(** The first state a run streams ends with the user's message. *)
Lemma streamed_states_first (l : list (string * string)) (c : string)
    (e e' : Env) (states : list AgentState) :
  c <> "" ->
  streamed_states (l ++ [("user", c)]) e = (Returns states, e') ->
  exists rest, last_contents states = c :: rest.
Proof.
  intros Hc. unfold streamed_states. eff.
  destruct (convert_to_messages (l ++ [("user", c)])) as [msgs | x] eqn:Hconv;
    [| discriminate].
  destruct (pregel_states recursion_limit LLM _ e) as [[rest | x] e1];
    [| discriminate].
  intros Heq. inversion Heq; subst. rewrite last_contents_cons.
  unfold last_content, add_messages. cbn [messages app].
  rewrite (convert_to_messages_last _ _ _ Hconv). cbn [content].
  rewrite (truthy_true _ Hc). eauto.
Qed.


Lemma last_contents_truthy (states : list AgentState) (c : string) :
  c ∈ last_contents states -> c <> "".
Proof.
  induction states as [| state rest IH]; [intros Hin; inversion Hin |].
  rewrite last_contents_cons.
  destruct (last_content state) as [c' |] eqn:Hlc; [| exact IH].
  intros [-> | Hin]%elem_of_cons; [| now apply IH].
  unfold last_content in Hlc.
  destruct (list.last (messages state)) as [m |]; [| discriminate].
  destruct (truthy (content m)) eqn:Ht; [| discriminate].
  injection Hlc as <-. now apply truthy_nonempty.
Qed.

Lemma error_context_nonempty (um msg : string) : error_context um msg <> "".
Proof. discriminate. Qed.

(** What the [except] block answers.  It runs the graph once more, on the
    single message built from the question and the error.  When that run
    raises, the answer is 500 with the first error.  When it completes, the
    answer is 200: the apology, then the last content that is not empty
    among the last messages of the states streamed, which is never
    missing since the first of these states ends with the message the block
    built itself. *)
Lemma chat_except_answers (um : string) (x : exn) (w : World) :
  match streamed_states [("user", error_context um (exn_msg x))] (env w) with
  | (Returns states, e') =>
      exists r,
        list.last (last_contents states) = Some r
        /\ r <> ""
        /\ chat_except um x w
           = (Returns (mkResponse 200
                         (ChatBody (apology +:+ r)
                                   [mkEntry "agent" r (isoformat (clock w))])),
              mkWorld _ e' (S (clock w)))
  | (Raises _, e') =>
      exists t,
        chat_except um x w = (Returns (failure (exn_msg x)), mkWorld _ e' t)
  end.
Proof.
  pose proof (graph_stream_fold collect_retry collect_retry_step
                collect_retry_clock_only
                [("user", error_context um (exn_msg x))] "" w) as Hfold.
  destruct (streamed_states _ (env w)) as [[states | x'] e'] eqn:Hrun.
  - destruct (streamed_states_first [] _ _ _ _ (error_context_nonempty _ _) Hrun)
      as (rest & Hrest).
    destruct (list.last (last_contents states)) as [r |] eqn:Hlast.
    2: { rewrite Hrest in Hlast. now apply last_None in Hlast. }
    assert (Hr : r <> "").
    { apply (last_contents_truthy states). eapply list.last_Some_elem_of, Hlast. }
    exists r. repeat split; [exact Hr |].
    unfold chat_except, try_except. eff. rewrite Hfold, fold_collect_retry, Hlast.
    cbn [fst snd from_option id]. rewrite (truthy_true _ Hr). reflexivity.
  - destruct Hfold as (t & Hfold). exists t.
    unfold chat_except, try_except. eff. now rewrite Hfold.
Qed.

Lemma chat_when_try_raises (data : ChatRequest) (w w1 : World) (x : exn) :
  chat_try data w = (Raises x, w1) ->
  chat data w = chat_except (default "" (message data)) x w1.
Proof. intros Ht. unfold chat, try_except. now rewrite Ht. Qed.

End Chat.

(** * The code on concrete inputs *)

(** C2 at a state where the model asked for one call. *)
Lemma done_iff_no_tool_calls_witness :
  (next_node LLM (Stub.asked [Stub.list_tables]) = Returns END
   <-> [Stub.list_tables] = [])
  /\ next_node LLM (Stub.asked [Stub.list_tables]) = Returns TOOLS
  /\ should_continue (Stub.asked [Stub.list_tables]) = Returns "continue".
Proof.
  destruct (done_iff_no_tool_calls (Stub.asked [Stub.list_tables])
              "" [Stub.list_tables] eq_refl) as (Hiff & Hne & Hsc & _).
  split; [exact Hiff |]. split; [apply Hne; discriminate | exact Hsc].
Defined.

(** C3, as stated, fails on a batch whose call lacks its required argument:
    the node raises pydantic's error and no ToolMessage answers the call. *)
Lemma tool_results_counterexample :
  last_tool_calls (Stub.asked [Stub.missing_query]) = Returns [Stub.missing_query]
  /\ @run_node (Stub.lib []) TOOLS (Stub.asked [Stub.missing_query]) (Stub.env0 [])
     = (Raises (ValidationError "query: Field required"), Stub.env0 [])
  /\ ~ exists state' e' outputs,
         @run_node (Stub.lib []) TOOLS (Stub.asked [Stub.missing_query]) (Stub.env0 [])
         = (Returns state', e')
         /\ messages state' = messages (Stub.asked [Stub.missing_query]) ++ outputs
         /\ length outputs = 1.
Proof.
  assert (Hrun : @run_node (Stub.lib []) TOOLS (Stub.asked [Stub.missing_query])
                   (Stub.env0 [])
                 = (Raises (ValidationError "query: Field required"), Stub.env0 []))
    by reflexivity.
  split; [reflexivity |]. split; [exact Hrun |].
  intros (state' & e' & outputs & Hret & _). rewrite Hrun in Hret. discriminate.
Qed.

(** A batch of two calls that both return is answered call by call. *)
Example tool_results_in_order :
  fst (@run_node (Stub.lib []) TOOLS
         (Stub.asked [Stub.select_passengers; Stub.sample_transactions])
         (Stub.env0 []))
  = Returns
      (mkState
         [HumanMessage "How many passengers survived?";
          AIMessage "" [Stub.select_passengers; Stub.sample_transactions];
          ToolMessage "{'result': [(1, 'Braund'), (2, 'Cumings')]}"
                      "execute_titanic_sql_query" "call_5";
          ToolMessage "{'result': [(1, 'rent')]}"
                      "get_table_row_example" "call_4"]
         None).
Proof. vm_compute. reflexivity. Qed.

(** C4, as stated, fails on a batch whose first call lacks its argument:
    the failure is not turned into a ToolMessage, the sibling call is not
    dispatched (the environment is untouched: no connection was opened) and
    the run of the graph ends with the exception. *)
Lemma tool_failures_counterexample :
  @run_node (Stub.lib []) TOOLS
     (Stub.asked [Stub.missing_query; Stub.list_tables]) (Stub.env0 [])
  = (Raises (ValidationError "query: Field required"), Stub.env0 [])
  /\ @pregel_states (Stub.lib []) 25 TOOLS
       (Stub.asked [Stub.missing_query; Stub.list_tables]) (Stub.env0 [])
     = (Raises (ValidationError "query: Field required"), Stub.env0 [])
  /\ ~ exists state' e',
         @run_node (Stub.lib []) TOOLS
            (Stub.asked [Stub.missing_query; Stub.list_tables]) (Stub.env0 [])
         = (Returns state', e').
Proof.
  assert (Hrun : @run_node (Stub.lib []) TOOLS
                   (Stub.asked [Stub.missing_query; Stub.list_tables]) (Stub.env0 [])
                 = (Raises (ValidationError "query: Field required"), Stub.env0 []))
    by reflexivity.
  split; [exact Hrun |]. split; [reflexivity |].
  intros (state' & e' & Hret). rewrite Hrun in Hret. discriminate.
Qed.

(** C3 (amended) on a batch of two calls that return and on a batch whose
    second call lacks its argument. *)
Lemma tool_results_match_calls_witness :
  (@run_node (Stub.lib []) TOOLS
      (Stub.asked [Stub.select_passengers; Stub.sample_transactions]) (Stub.env0 [])
   = (Returns
        (mkState
           [HumanMessage "How many passengers survived?";
            AIMessage "" [Stub.select_passengers; Stub.sample_transactions];
            ToolMessage "{'result': [(1, 'Braund'), (2, 'Cumings')]}"
                        "execute_titanic_sql_query" "call_5";
            ToolMessage "{'result': [(1, 'rent')]}"
                        "get_table_row_example" "call_4"]
           None),
      snd (@batch_outcome (Stub.lib [])
             [Stub.select_passengers; Stub.sample_transactions] (Stub.env0 []))))
  /\ @run_node (Stub.lib []) TOOLS
       (Stub.asked [Stub.sample_transactions; Stub.missing_query; Stub.list_tables])
       (Stub.env0 [])
     = (Raises (ValidationError "query: Field required"),
        snd (@batch_outcome (Stub.lib []) [Stub.sample_transactions] (Stub.env0 []))).
Proof.
  split.
  - exact (proj1 (@tool_results_match_calls (Stub.lib [])
                    (Stub.asked [Stub.select_passengers; Stub.sample_transactions])
                    [Stub.select_passengers; Stub.sample_transactions]
                    (Stub.env0 []) eq_refl)).
  - exact (proj1 (@tool_results_match_calls (Stub.lib [])
                    (Stub.asked [Stub.sample_transactions; Stub.missing_query;
                                 Stub.list_tables])
                    [Stub.sample_transactions; Stub.missing_query; Stub.list_tables]
                    (Stub.env0 []) eq_refl)).
Defined.

(** C4 (amended) on two batches of three calls: in the first the second
    call fails inside [get_table_columns], which reports it; in the second
    the second call lacks its argument. *)
Lemma tool_failures_witness :
  (@run_node (Stub.lib []) TOOLS
      (Stub.asked [Stub.sample_transactions; Stub.columns_of_nothing; Stub.list_tables])
      (Stub.env0 [])
   = (Returns
        (mkState
           [HumanMessage "How many passengers survived?";
            AIMessage ""
              [Stub.sample_transactions; Stub.columns_of_nothing; Stub.list_tables];
            ToolMessage "{'result': [(1, 'rent')]}" "get_table_row_example" "call_4";
            ToolMessage "{'error': 'Failed to get table columns: syntax error'}"
                        "get_table_columns" "call_3";
            ToolMessage "{'result': [('transactions',)]}" "get_table_names" "call_2"]
           None),
      snd (@batch_outcome (Stub.lib [])
             [Stub.sample_transactions; Stub.columns_of_nothing; Stub.list_tables]
             (Stub.env0 []))))
  /\ (@run_node (Stub.lib []) TOOLS
        (Stub.asked [Stub.sample_transactions; Stub.missing_query; Stub.list_tables])
        (Stub.env0 [])
      = (Raises (ValidationError "query: Field required"),
         snd (@batch_outcome (Stub.lib []) [Stub.sample_transactions] (Stub.env0 [])))
      /\ forall fuel,
           @pregel_states (Stub.lib []) (S fuel) TOOLS
             (Stub.asked [Stub.sample_transactions; Stub.missing_query; Stub.list_tables])
             (Stub.env0 [])
           = (Raises (ValidationError "query: Field required"),
              snd (@batch_outcome (Stub.lib []) [Stub.sample_transactions]
                     (Stub.env0 [])))).
Proof.
  split.
  - exact (proj1
             (proj1 (@tool_failures (Stub.lib [])
                       (Stub.asked [Stub.sample_transactions; Stub.columns_of_nothing;
                                    Stub.list_tables])
                       [Stub.sample_transactions] [Stub.list_tables]
                       Stub.columns_of_nothing
                       (mkTool "get_table_columns" TableNameInput true get_table_columns)
                       (Stub.env0 [])
                       (snd (@batch_outcome (Stub.lib []) [Stub.sample_transactions]
                               (Stub.env0 [])))
                       [Result [[SqlInt 1; SqlText "rent"]]]
                       eq_refl eq_refl eq_refl)
                    "nothing" "Failed to get table columns: syntax error"
                    (snd (@batch_outcome (Stub.lib [])
                            [Stub.sample_transactions; Stub.columns_of_nothing]
                            (Stub.env0 [])))
                    eq_refl eq_refl)).
  - exact (proj2
             (proj2 (@tool_failures (Stub.lib [])
                       (Stub.asked [Stub.sample_transactions; Stub.missing_query;
                                    Stub.list_tables])
                       [Stub.sample_transactions] [Stub.list_tables]
                       Stub.missing_query
                       (mkTool "execute_titanic_sql_query" SQLQueryInput true
                               execute_titanic_sql_query)
                       (Stub.env0 [])
                       (snd (@batch_outcome (Stub.lib []) [Stub.sample_transactions]
                               (Stub.env0 [])))
                       [Result [[SqlInt 1; SqlText "rent"]]]
                       eq_refl eq_refl eq_refl))
             (ValidationError "query: Field required") eq_refl).
Defined.

(** What the first of these batches appends: the failure inside
    [get_table_columns] has become the content of its ToolMessage. *)
Example reported_failure_is_content :
  fst (@run_node (Stub.lib []) TOOLS
         (Stub.asked [Stub.columns_of_nothing; Stub.sample_transactions])
         (Stub.env0 []))
  = Returns
      (mkState
         [HumanMessage "How many passengers survived?";
          AIMessage "" [Stub.columns_of_nothing; Stub.sample_transactions];
          ToolMessage "{'error': 'Failed to get table columns: syntax error'}"
                      "get_table_columns" "call_3";
          ToolMessage "{'result': [(1, 'rent')]}"
                      "get_table_row_example" "call_4"]
         None).
Proof. vm_compute. reflexivity. Qed.

(** C5 at its failing inputs.  On the empty text, where sqlparse finds no
    statement, and on a SELECT from a table that does not exist, the two
    query tools raise; [get_table_row_example], which runs the same
    statement inside try/except, returns an error payload. *)
Theorem query_tools_raise :
  fst (@execute_titanic_sql_query (Stub.lib []) "" (Stub.env0 []))
  = Raises (IndexError "tuple index out of range")
  /\ fst (@execute_finance_sql_query (Stub.lib []) "" (Stub.env0 []))
     = Raises (IndexError "tuple index out of range")
  /\ fst (@execute_titanic_sql_query (Stub.lib []) "SELECT * FROM survivors"
            (Stub.env0 []))
     = Raises (Stub.OperationalError "no such table: survivors")
  /\ fst (@execute_finance_sql_query (Stub.lib []) "SELECT * FROM survivors"
            (Stub.env0 []))
     = Raises (Stub.OperationalError "no such table: survivors")
  /\ fst (@get_table_row_example (Stub.lib []) "survivors" (Stub.env0 []))
     = Returns (Error "Failed to get table row example: no such table: survivors").
Proof. repeat split; vm_compute; reflexivity. Qed.

(** C6 at its failing input.  After a SELECT that raises in
    [cursor.execute], the connection the call opened is still open; a
    second such call leaves a second one. *)
Theorem failed_select_leaves_connection_open :
  handles (snd (@execute_titanic_sql_query (Stub.lib []) "SELECT * FROM survivors"
                  (Stub.env0 [])))
  = [mkConn 0 titanic_db]
  /\ handles (snd (@execute_finance_sql_query (Stub.lib []) "SELECT * FROM survivors"
                     (snd (@execute_titanic_sql_query (Stub.lib [])
                             "SELECT * FROM survivors" (Stub.env0 [])))))
     = [mkConn 1 finance_db; mkConn 0 titanic_db]
  /\ handles (snd (@execute_titanic_sql_query (Stub.lib []) "SELECT * FROM passengers"
                     (Stub.env0 [])))
     = [].
Proof. repeat split; vm_compute; reflexivity. Qed.

(** C7 at the empty message. *)
Lemma empty_message_is_400_witness :
  @chat (Stub.lib []) (mkRequest (Some "") (Some [])) (Stub.world0 [])
  = (Returns (mkResponse 400 (ErrorBody "No message provided")), Stub.world0 []).
Proof.
  apply (@empty_message_is_400 (Stub.lib []) (mkRequest (Some "") (Some []))
           (Stub.world0 [])).
  right. reflexivity.
Defined.

(** C10 at a history with an entry typed "system" between two others. *)
Lemma unknown_history_type_is_dropped_witness :
  (forall acc,
     convert_history
       ([mkHistory (Some "user") (Some "a")]
        ++ mkHistory (Some "system") None :: [mkHistory (Some "agent") (Some "b")]) acc
     = convert_history
         ([mkHistory (Some "user") (Some "a")] ++ [mkHistory (Some "agent") (Some "b")])
         acc)
  /\ (forall m w,
        @chat (Stub.lib [])
           (mkRequest m
              (Some ([mkHistory (Some "user") (Some "a")]
                     ++ mkHistory (Some "system") None
                        :: [mkHistory (Some "agent") (Some "b")]))) w
        = @chat (Stub.lib [])
            (mkRequest m
               (Some ([mkHistory (Some "user") (Some "a")]
                      ++ [mkHistory (Some "agent") (Some "b")]))) w).
Proof.
  apply (@unknown_history_type_is_dropped (Stub.lib [])
           [mkHistory (Some "user") (Some "a")]
           [mkHistory (Some "agent") (Some "b")]
           (mkHistory (Some "system") None) "system").
  - reflexivity.
  - discriminate.
  - discriminate.
Defined.

(** C8 at its failing input.  The model raises on the first call and
    answers the retry with an empty content and no tool call: the retry has
    produced nothing, yet [chat] answers 200 with the apology followed by
    the text of the message the [except] block built itself. *)
Theorem silent_retry_echoes_its_prompt :
  fst (@chat (Stub.lib Stub.failing_then_silent)
         (mkRequest (Some "hi") (Some []))
         (Stub.world0 Stub.failing_then_silent))
  = Returns
      (mkResponse 200
         (ChatBody (apology +:+ error_context "hi" "quota exceeded")
                   [mkEntry "agent" (error_context "hi" "quota exceeded") "T1"]))
  /\ fst (@streamed_states (Stub.lib Stub.failing_then_silent)
            [("user", error_context "hi" "quota exceeded")]
            (snd (@call_model (Stub.lib Stub.failing_then_silent)
                    (mkState [HumanMessage "hi"] None)
                    (Stub.env0 Stub.failing_then_silent))))
     = Returns
         [mkState [HumanMessage (error_context "hi" "quota exceeded")] None;
          mkState [HumanMessage (error_context "hi" "quota exceeded");
                   AIMessage "" []] None].
Proof. split; vm_compute; reflexivity. Qed.

(** When the retry raises as well, the answer is 500 with the first
    error. *)
Example failed_retry_is_500 :
  fst (@chat (Stub.lib [Raises (Exn "ChatGoogleGenerativeAIError" "quota exceeded")])
         (mkRequest (Some "hi") (Some []))
         (Stub.world0 [Raises (Exn "ChatGoogleGenerativeAIError" "quota exceeded")]))
  = Returns (failure "quota exceeded").
Proof. vm_compute. reflexivity. Qed.



(** * Further properties of the tools *)

Section MoreTools.
Context `{Library}.

(** The block the five database tools share: connect, execute, fetch,
    close, return the rows. *)
Definition query_block (path sql : string) : Agent payload :=
  conn ← sqlite3_connect path;
  cursor ← cursor_execute conn sql;
  result ← cursor_fetchall cursor;
  conn_close conn;;
  ret (Result result).

(** The block, outcome by outcome. *)
Lemma query_block_outcomes (path sql : string) (e : Env) :
  query_block path sql e
  = match connect_error path (files e path) with
    | Some x => (Raises x, e)
    | None =>
        match sqlite3_run sql (files e path) with
        | (Returns rows, d) =>
            (Returns (Result rows),
             mkEnv _ (<[path := d]> (files e))
                   (filter (fun c' => conn_id c' <> connects e)
                           (mkConn (connects e) path :: handles e))
                   (S (connects e)) (console e) (llm_calls e))
        | (Raises x, d) =>
            (Raises x,
             mkEnv _ (<[path := d]> (files e))
                   (mkConn (connects e) path :: handles e)
                   (S (connects e)) (console e) (llm_calls e))
        end
    end.
Proof.
  unfold query_block, sqlite3_connect, cursor_execute, cursor_fetchall, conn_close.
  eff. destruct (connect_error path (files e path)); [reflexivity |]. simpl.
  now destruct (sqlite3_run sql (files e path)) as [[rows | x] d].
Qed.

Lemma filter_fresh (e : Env) (path : string) :
  fresh_ids e ->
  filter (fun c' => conn_id c' <> connects e)
         (mkConn (connects e) path :: handles e)
  = handles e.
Proof.
  intros Hfresh.
  rewrite filter_cons_False by (simpl; intros Hne; now apply Hne).
  unfold fresh_ids in Hfresh. induction Hfresh as [| c l Hc _ IH].
  - reflexivity.
  - rewrite filter_cons_True by exact Hc. now rewrite IH.
Qed.


(** The three tools whose body is wrapped in try/except return a payload
    on every argument and in every environment, whatever the console or
    the database does. *)
Theorem caught_tools_never_raise (arg : string) (e : Env) :
  (exists p e', get_human_input arg e = (Returns p, e'))
  /\ (exists p e', get_table_columns arg e = (Returns p, e'))
  /\ (exists p e', get_table_row_example arg e = (Returns p, e')).
Proof. repeat split; apply try_except_returns. Qed.

(** [get_human_input] takes the next line of the console, whatever the
    prompt; at the end of the input it reports the EOFError as an error
    payload and leaves the environment as it was. *)
Theorem get_human_input_reads_one_line (prompt : string) (e : Env) :
  get_human_input prompt e
  = match console e with
    | [] =>
        (Returns (Error "Failed to get user input: EOF when reading a line"), e)
    | line :: rest =>
        (Returns (UserInput line),
         mkEnv _ (files e) (handles e) (connects e) rest (llm_calls e))
    end.
Proof.
  unfold get_human_input, input. eff. now destruct (console e).
Qed.

Lemma get_table_columns_block (table_name : string) :
  get_table_columns table_name
  = try_except
      (query_block finance_db ("PRAGMA table_info(" +:+ table_name +:+ ")"))
      (fun x => ret (Error ("Failed to get table columns: " +:+ exn_msg x))).
Proof. reflexivity. Qed.

Lemma get_table_row_example_block (table_name : string) :
  get_table_row_example table_name
  = try_except
      (query_block finance_db ("SELECT * FROM " +:+ table_name +:+ " LIMIT 1"))
      (fun x => ret (Error ("Failed to get table row example: " +:+ exn_msg x))).
Proof. reflexivity. Qed.


(** When the connection opens and the statement raises, the two table
    tools return the error payload with their own prefix and the text of
    the exception, and the connection they opened stays open. *)
Theorem table_tools_report_database_errors (table_name : string) (e : Env) :
  connect_error finance_db (files e finance_db) = None ->
  (forall x d,
     sqlite3_run ("PRAGMA table_info(" +:+ table_name +:+ ")") (files e finance_db)
     = (Raises x, d) ->
     exists e',
       get_table_columns table_name e
       = (Returns (Error ("Failed to get table columns: " +:+ exn_msg x)), e')
       /\ handles e' = mkConn (connects e) finance_db :: handles e)
  /\ (forall x d,
        sqlite3_run ("SELECT * FROM " +:+ table_name +:+ " LIMIT 1") (files e finance_db)
        = (Raises x, d) ->
        exists e',
          get_table_row_example table_name e
          = (Returns (Error ("Failed to get table row example: " +:+ exn_msg x)), e')
          /\ handles e' = mkConn (connects e) finance_db :: handles e).
Proof.
  intros Hc. split; intros x d Hr.
  - rewrite get_table_columns_block. unfold try_except.
    rewrite query_block_outcomes, Hc, Hr. eexists. split; reflexivity.
  - rewrite get_table_row_example_block. unfold try_except.
    rewrite query_block_outcomes, Hc, Hr. eexists. split; reflexivity.
Qed.

(** When [sqlite3.connect] raises, the two table tools report it as an
    error payload, [get_table_names], which has no try/except, raises it;
    in all three the environment is left as it was. *)
Theorem connect_failure_by_tool (table_name : string) (e : Env) (x : exn) :
  connect_error finance_db (files e finance_db) = Some x ->
  get_table_columns table_name e
  = (Returns (Error ("Failed to get table columns: " +:+ exn_msg x)), e)
  /\ get_table_row_example table_name e
     = (Returns (Error ("Failed to get table row example: " +:+ exn_msg x)), e)
  /\ get_table_names e = (Raises x, e).
Proof.
  intros Hc.
  unfold get_table_columns, get_table_row_example, get_table_names,
    sqlite3_connect.
  eff. now rewrite Hc.
Qed.

Lemma execute_titanic_cases (query : string) (e : Env) :
  execute_titanic_sql_query query e
  = match sqlparse_parse query with
    | [] => (Raises (IndexError "tuple index out of range"), e)
    | s :: _ =>
        if String.eqb (lower (get_type s)) "select"
        then query_block titanic_db query e
        else (Returns read_only_error, e)
    end.
Proof.
  unfold execute_titanic_sql_query, query_type_of. eff.
  destruct (sqlparse_parse query) as [| s rest]; [reflexivity |]. simpl.
  now destruct (String.eqb (lower (get_type s)) "select").
Qed.

Lemma execute_finance_cases (query : string) (e : Env) :
  execute_finance_sql_query query e
  = match sqlparse_parse query with
    | [] => (Raises (IndexError "tuple index out of range"), e)
    | s :: _ =>
        if String.eqb (lower (get_type s)) "select"
        then query_block finance_db query e
        else (Returns read_only_error, e)
    end.
Proof.
  unfold execute_finance_sql_query, query_type_of. eff.
  destruct (sqlparse_parse query) as [| s rest]; [reflexivity |]. simpl.
  now destruct (String.eqb (lower (get_type s)) "select").
Qed.

(** A text whose first statement is a SELECT is passed whole to SQLite,
    whatever statements follow the first.  When the connection opens and
    the statement returns, the tool returns the rows; afterwards the
    database is as SQLite left it, the connection the call opened is
    closed and the handles are those open before the call. *)
Theorem select_runs_and_closes (query : string) (s : statement)
    (rest : list statement) (e : Env) :
  sqlparse_parse query = s :: rest ->
  lower (get_type s) = "select" ->
  fresh_ids e ->
  (forall rows d,
     connect_error titanic_db (files e titanic_db) = None ->
     sqlite3_run query (files e titanic_db) = (Returns rows, d) ->
     execute_titanic_sql_query query e
     = (Returns (Result rows),
        mkEnv _ (<[titanic_db := d]> (files e)) (handles e) (S (connects e))
              (console e) (llm_calls e)))
  /\ (forall rows d,
        connect_error finance_db (files e finance_db) = None ->
        sqlite3_run query (files e finance_db) = (Returns rows, d) ->
        execute_finance_sql_query query e
        = (Returns (Result rows),
           mkEnv _ (<[finance_db := d]> (files e)) (handles e) (S (connects e))
                 (console e) (llm_calls e))).
Proof.
  intros Hp Hty Hfresh. split; intros rows d Hc Hr.
  - rewrite execute_titanic_cases, Hp, Hty. cbn [String.eqb].
    change (String.eqb "select" "select") with true. cbv iota.
    now rewrite query_block_outcomes, Hc, Hr, filter_fresh.
  - rewrite execute_finance_cases, Hp, Hty.
    change (String.eqb "select" "select") with true. cbv iota.
    now rewrite query_block_outcomes, Hc, Hr, filter_fresh.
Qed.

(** ** The registry *)

(** [tools_by_name] holds exactly the six tools, each under its own name:
    every tool of [tools] is found under its name, and whatever is found
    under a name is a tool of [tools] with that name. *)
Theorem tools_by_name_round_trip :
  (forall t, t ∈ tools -> tools_by_name !! tool_name t = Some t)
  /\ (forall n t, tools_by_name !! n = Some t -> t ∈ tools /\ tool_name t = n).
Proof.
  split.
  - intros t Ht. unfold tools in Ht.
    repeat (apply elem_of_cons in Ht as [-> | Ht]; [reflexivity |]).
    now apply elem_of_nil in Ht.
  - intros n t Hl. unfold tools_by_name, tools in Hl. cbn [foldl tool_name] in Hl.
    repeat (apply lookup_insert_Some in Hl as [[<- <-] | [_ Hl]];
            [split; [apply list_elem_of_In; simpl; tauto | reflexivity] |]).
    now rewrite lookup_empty in Hl.
Qed.

Lemma tools_by_name_found (n : string) (t : Tool) :
  tools_by_name !! n = Some t -> t ∈ tools /\ tool_name t = n.
Proof.
  intros Hl. unfold tools_by_name, tools in Hl. cbn [foldl tool_name] in Hl.
  repeat (apply lookup_insert_Some in Hl as [[<- <-] | [_ Hl]];
          [split; [apply list_elem_of_In; simpl; tauto | reflexivity] |]).
  now rewrite lookup_empty in Hl.
Qed.

(** A call that names no tool of the registry raises KeyError with the
    name, before anything is run: the environment is left as it was, and
    the whole batch fails with it when it is the first call. *)
Theorem unknown_tool_raises_KeyError (call : ToolCall) (rest : list ToolCall)
    (e : Env) :
  tc_name call ∉ (tool_name <$> tools) ->
  dispatch call e = (Raises (KeyError (tc_name call)), e)
  /\ call_tool_loop (call :: rest) [] e = (Raises (KeyError (tc_name call)), e).
Proof.
  intros Hn.
  assert (Hd : dispatch call e = (Raises (KeyError (tc_name call)), e)).
  { unfold dispatch. eff.
    destruct (tools_by_name !! tc_name call) as [t |] eqn:Hl; [| reflexivity].
    exfalso. apply Hn. apply tools_by_name_found in Hl as [Ht <-].
    now apply list_elem_of_fmap_2. }
  split; [exact Hd |]. cbn [call_tool_loop]. eff. now rewrite Hd.
Qed.

(** ** Schema validation *)

(** The check of a one-field schema succeeds exactly when the field is
    present with a str value, and then gives that value; keys the schema
    does not declare change nothing; a tool without arguments accepts any
    mapping. *)
Theorem validate_checks_one_field (f : string) (args : gmap string argval) :
  (forall v, validate (StrField f) args = Returns v <-> args !! f = Some (VStr v))
  /\ (forall k a, k <> f ->
        validate (StrField f) (<[k := a]> args) = validate (StrField f) args)
  /\ validate NoArgs args = Returns "".
Proof.
  repeat split.
  - unfold validate. destruct (args !! f) as [[] |]; intros Hv; now inversion Hv.
  - intros Hl. unfold validate. now rewrite Hl.
  - intros k a Hk. unfold validate. now rewrite lookup_insert_ne.
Qed.

End MoreTools.

(** ** Which database a tool call can touch *)

Section Isolation.
Context `{Library}.







End Isolation.

(** * Further properties of a run of the graph *)

Section Runs.
Context `{Library}.

Lemma run_node_extends (n : node) (state state' : AgentState) (e e' : Env) :
  run_node n state e = (Returns state', e') ->
  messages state `prefix_of` messages state'
  /\ number_of_steps state' = number_of_steps state.
Proof.
  destruct n; cbn [run_node]; eff.
  - destruct (call_model state e) as [[update | x] e1]; [| discriminate].
    intros Heq. inversion Heq; subst. split; [now eexists | reflexivity].
  - destruct (call_tool state e) as [[update | x] e1]; [| discriminate].
    intros Heq. inversion Heq; subst. split; [now eexists | reflexivity].
  - intros Heq. inversion Heq; subst. split; reflexivity.
Qed.

(** Each state extends the one before it. *)
Fixpoint growing (prev : AgentState) (states : list AgentState) : Prop :=
  match states with
  | [] => True
  | state :: rest =>
      messages prev `prefix_of` messages state
      /\ number_of_steps state = number_of_steps prev
      /\ growing state rest
  end.

(** The conversation only grows: every state a completed run streams has
    the messages of the state before it as a prefix, none removed and none
    reordered, and [number_of_steps] is never written. *)
Theorem run_is_append_only (fuel : nat) :
  forall n state e states e',
    pregel_states fuel n state e = (Returns states, e') ->
    growing state states.
Proof.
  induction fuel as [| fuel IH]; intros n state e states e'.
  - destruct n; cbn [pregel_states]; eff; intros Heq; inversion Heq; exact I.
  - destruct n; cbn [pregel_states]; eff.
    3: { intros Heq; inversion Heq; exact I. }
    all: (match goal with |- context [run_node ?m ?s ?e0] =>
            destruct (run_node m s e0) as [[state' | x] e1] eqn:Hrun end);
      [| discriminate];
      (match goal with |- context [next_node ?m ?s] =>
         destruct (next_node m s) as [n' | x] end);
      [| discriminate];
      destruct (pregel_states fuel n' state' e1) as [[rest | x] e2] eqn:Hrest;
      [| discriminate];
      intros Heq; inversion Heq; subst;
      apply run_node_extends in Hrun as [Hpre Hsteps];
      cbn [growing]; repeat split; try assumption;
      eapply IH; eassumption.
Qed.

(** A run that completes within some limit completes with the same states
    and the same environment within any larger one, and it has executed at
    most as many nodes as the limit allows. *)
Theorem completed_run_needs_no_more_fuel (fuel : nat) :
  forall n state e states e',
    pregel_states fuel n state e = (Returns states, e') ->
    length states <= fuel
    /\ forall k, pregel_states (fuel + k) n state e = (Returns states, e').
Proof.
  induction fuel as [| fuel IH]; intros n state e states e'.
  - destruct n; cbn [pregel_states]; eff; intros Heq; inversion Heq.
    split; [reflexivity |]. now intros [| k].
  - destruct n; cbn [pregel_states Nat.add]; eff.
    3: { intros Heq; inversion Heq. split; [simpl; lia | reflexivity]. }
    all: (match goal with |- context [run_node ?m ?s ?e0] =>
            destruct (run_node m s e0) as [[state' | x] e1] end);
      [| discriminate];
      (match goal with |- context [next_node ?m ?s] =>
         destruct (next_node m s) as [n' | x] end);
      [| discriminate];
      destruct (pregel_states fuel n' state' e1) as [[rest | x] e2] eqn:Hrest;
      [| discriminate];
      intros Heq; inversion Heq; subst;
      destruct (IH _ _ _ _ _ Hrest) as [Hlen Hmore];
      (split; [simpl; lia | intros k; now rewrite Hmore]).
Qed.

End Runs.

Section Rounds.
Context `{Library}.

(** What a completed run appends to the conversation: rounds of one
    AIMessage with tool calls followed by the answers to exactly these
    calls, in their order, and at the end one AIMessage without tool
    calls. *)
Inductive rounds : list Message -> Prop :=
| rounds_answer (c : string) : rounds [AIMessage c []]
| rounds_calls (c : string) (calls : list ToolCall) (outs rest : list Message) :
    calls <> [] ->
    Forall2 answers calls outs ->
    rounds rest ->
    rounds (AIMessage c calls :: outs ++ rest).

Lemma next_node_llm (state : AgentState) (c : string) (tcs : list ToolCall) :
  list.last (messages state) = Some (AIMessage c tcs) ->
  next_node LLM state = Returns (match tcs with [] => END | _ :: _ => TOOLS end).
Proof.
  intros Hl. unfold next_node, should_continue.
  rewrite (last_tool_calls_ai _ _ _ Hl). now destruct tcs.
Qed.

Lemma run_node_llm (state state' : AgentState) (e e' : Env) :
  run_node LLM state e = (Returns state', e') ->
  exists c tcs, messages state' = messages state ++ [AIMessage c tcs].
Proof.
  unfold run_node, call_model. eff.
  destruct (model_invoke (llm_calls e) (system_message :: messages state))
    as [[c tcs] | x]; intros Heq; inversion Heq; subst; simpl.
  now exists c, tcs.
Qed.

Lemma run_node_tools (state state' : AgentState) (e e' : Env) :
  run_node TOOLS state e = (Returns state', e') ->
  exists calls outs,
    last_tool_calls state = Returns calls
    /\ messages state' = messages state ++ outs
    /\ Forall2 answers calls outs.
Proof.
  unfold run_node, call_tool. eff.
  destruct (last_tool_calls state) as [calls | x]; [| discriminate].
  destruct (call_tool_loop calls [] e) as [[outs | x] e1] eqn:Hloop; [| discriminate].
  intros Heq. inversion Heq; subst.
  apply call_tool_loop_returns in Hloop as (new & -> & Hall).
  now exists calls, new.
Qed.

Lemma completed_run_rounds (fuel : nat) :
  forall state e states e',
    (pregel_states fuel LLM state e = (Returns states, e') ->
     exists final tr,
       list.last states = Some final
       /\ messages final = messages state ++ tr
       /\ rounds tr)
    /\ (forall c calls,
          calls <> [] ->
          list.last (messages state) = Some (AIMessage c calls) ->
          pregel_states fuel TOOLS state e = (Returns states, e') ->
          exists final outs tr,
            list.last states = Some final
            /\ messages final = messages state ++ outs ++ tr
            /\ Forall2 answers calls outs
            /\ rounds tr).
Proof.
  induction fuel as [| fuel IH]; intros state e states e'.
  - split; [| intros c calls _ _]; cbn [pregel_states]; eff; intros Heq;
      inversion Heq.
  - split; [| intros c calls Hne Hlast]; cbn [pregel_states]; eff.
    + destruct (run_node LLM state e) as [[state' | x] e1] eqn:Hrun; [| discriminate].
      destruct (run_node_llm _ _ _ _ Hrun) as (c & tcs & Hmsgs).
      assert (Hl : list.last (messages state') = Some (AIMessage c tcs))
        by (rewrite Hmsgs; apply last_snoc).
      rewrite (next_node_llm _ _ _ Hl).
      destruct tcs as [| tc tcs].
      * destruct fuel; cbn [pregel_states]; eff; intros Heq; inversion Heq; subst;
          exists state', [AIMessage c []]; repeat split; try assumption; constructor.
      * destruct (pregel_states fuel TOOLS state' e1) as [[rest | x] e2] eqn:Hrest;
          [| discriminate].
        intros Heq. inversion Heq; subst.
        destruct (proj2 (IH state' e1 rest e') c (tc :: tcs)) as
          (final & outs & tr & Hfin & Hm & Hans & Hr); [discriminate | exact Hl | exact Hrest |].
        exists final, (AIMessage c (tc :: tcs) :: outs ++ tr). repeat split.
        -- rewrite last_cons, Hfin. reflexivity.
        -- rewrite Hm, Hmsgs, <- app_assoc. reflexivity.
        -- now constructor.
    + destruct (run_node TOOLS state e) as [[state' | x] e1] eqn:Hrun; [| discriminate].
      destruct (run_node_tools _ _ _ _ Hrun) as (calls' & outs & Hcalls & Hmsgs & Hans).
      rewrite (last_tool_calls_ai _ _ _ Hlast) in Hcalls. injection Hcalls as <-.
      cbn [next_node].
      destruct (pregel_states fuel LLM state' e1) as [[rest | x] e2] eqn:Hrest;
        [| discriminate].
      intros Heq. inversion Heq; subst.
      destruct (proj1 (IH state' e1 rest e') Hrest) as (final & tr & Hfin & Hm & Hr).
      exists final, outs, tr. repeat split; try assumption.
      * rewrite last_cons, Hfin. reflexivity.
      * rewrite Hm, Hmsgs, <- app_assoc. reflexivity.
Qed.

(** When a run completes, the conversation of its last state is the
    conversation it started from followed by rounds: every tool call the
    model made is answered by exactly one ToolMessage with its name and
    identifier, the answers of a batch standing in the order of its calls
    right after the AIMessage that made them and before the next call of
    the model, and the last message is an AIMessage without tool calls. *)
Theorem completed_run_answers_every_call (fuel : nat) (state : AgentState)
    (e e' : Env) (states : list AgentState) :
  pregel_states fuel LLM state e = (Returns states, e') ->
  exists final tr,
    list.last states = Some final
    /\ messages final = messages state ++ tr
    /\ rounds tr.
Proof. apply completed_run_rounds. Qed.

Lemma rounds_last (tr : list Message) :
  rounds tr -> exists c, list.last tr = Some (AIMessage c []).
Proof.
  induction 1 as [c | c calls outs rest _ _ _ [c' IH]].
  - now exists c.
  - exists c'. rewrite last_cons, last_app, IH. reflexivity.
Qed.

End Rounds.

(** * Further properties of the gateway *)

Section MoreChat.
Context `{Library}.

(** The role an entry of the history is forwarded under. *)
Definition role_of (ty : string) : option string :=
  if String.eqb ty "user" then Some "user"
  else if String.eqb ty "agent" then Some "assistant"
  else None.

(** The KeyError an entry raises in the conversion loop, if any: its type
    is missing, or it is typed "user" or "agent" and its content is
    missing. *)
Definition key_error (msg : HistoryEntry) : option exn :=
  match h_type msg with
  | None => Some (KeyError "type")
  | Some ty =>
      match role_of ty, h_content msg with
      | Some _, None => Some (KeyError "content")
      | _, _ => None
      end
  end.

(** The tuple an entry is forwarded as, if it is. *)
Definition forwarded (msg : HistoryEntry) : option (string * string) :=
  match h_type msg, h_content msg with
  | Some ty, Some c =>
      match role_of ty with
      | Some r => Some (r, c)
      | None => None
      end
  | _, _ => None
  end.

(** The message the graph is seeded with for an entry. *)
Definition seeded (msg : HistoryEntry) : option Message :=
  match forwarded msg with
  | Some (r, c) =>
      if String.eqb r "user" then Some (HumanMessage c) else Some (AIMessage c [])
  | None => None
  end.

Lemma convert_history_step (msg : HistoryEntry) (rest : list HistoryEntry)
    (acc : list (string * string)) :
  convert_history (msg :: rest) acc
  = match key_error msg with
    | Some x => Raises x
    | None =>
        convert_history rest
          (acc ++ match forwarded msg with Some t => [t] | None => [] end)
    end.
Proof.
  unfold key_error, forwarded, role_of. cbn [convert_history].
  destruct (h_type msg) as [ty |]; [| reflexivity].
  destruct (String.eqb ty "user").
  - now destruct (h_content msg).
  - destruct (String.eqb ty "agent").
    + now destruct (h_content msg).
    + destruct (h_content msg); now rewrite app_nil_r.
Qed.

Lemma convert_history_readable (h : list HistoryEntry) :
  Forall (fun msg => key_error msg = None) h ->
  forall acc, convert_history h acc = Returns (acc ++ omap forwarded h).
Proof.
  induction 1 as [| msg rest Hk _ IH]; intros acc.
  - simpl. now rewrite app_nil_r.
  - rewrite convert_history_step, Hk, IH, <- app_assoc. cbn [omap list_omap].
    now destruct (forwarded msg).
Qed.

Lemma convert_to_messages_app (l1 l2 : list (string * string)) (m1 m2 : list Message) :
  convert_to_messages l1 = Returns m1 ->
  convert_to_messages l2 = Returns m2 ->
  convert_to_messages (l1 ++ l2) = Returns (m1 ++ m2).
Proof.
  revert m1. induction l1 as [| t l1 IH]; intros m1 H1 H2.
  - simpl in H1. inversion H1; subst. exact H2.
  - cbn [app convert_to_messages] in *.
    destruct (convert_to_message t) as [m | x]; [| discriminate].
    destruct (convert_to_messages l1) as [ms | x]; [| discriminate].
    inversion H1; subst. now rewrite (IH ms eq_refl H2).
Qed.

Lemma convert_forwarded (h : list HistoryEntry) :
  convert_to_messages (omap forwarded h) = Returns (omap seeded h).
Proof.
  induction h as [| msg rest IH]; [reflexivity |].
  cbn [omap list_omap]. unfold seeded at 1.
  destruct (forwarded msg) as [[r c] |] eqn:Hf; [| exact IH].
  cbn [convert_to_messages]. fold (omap forwarded rest). rewrite IH.
  unfold forwarded, role_of in Hf.
  destruct (h_type msg) as [ty |]; [| discriminate].
  destruct (h_content msg) as [c' |]; [| discriminate].
  destruct (String.eqb ty "user"); [now inversion Hf |].
  destruct (String.eqb ty "agent"); [now inversion Hf | discriminate].
Qed.

(** A history none of whose entries raises is forwarded in its order: the
    entries typed "user" become HumanMessages, those typed "agent"
    AIMessages without tool calls, the others are left out, and the new
    message of the user comes last. *)
Theorem history_is_forwarded_in_order (h : list HistoryEntry) (um : string) :
  Forall (fun msg => key_error msg = None) h ->
  convert_history h [] = Returns (omap forwarded h)
  /\ convert_to_messages (omap forwarded h ++ [("user", um)])
     = Returns (omap seeded h ++ [HumanMessage um]).
Proof.
  intros Hh. split.
  - now rewrite convert_history_readable.
  - apply convert_to_messages_app; [apply convert_forwarded | reflexivity].
Qed.

(** The first entry of the history that lacks its type, or is typed "user"
    or "agent" and lacks its content, makes the conversion raise KeyError
    for that key; [chat] then answers from its [except] block with that
    error, the graph not having run in the [try] block. *)
Theorem malformed_history_goes_to_recovery (data : ChatRequest) (w : World)
    (um : string) (h1 h2 : list HistoryEntry) (msg : HistoryEntry) (x : exn) :
  message data = Some um ->
  um <> "" ->
  conversation_history data = Some (h1 ++ msg :: h2) ->
  Forall (fun m => key_error m = None) h1 ->
  key_error msg = Some x ->
  convert_history (h1 ++ msg :: h2) [] = Raises x
  /\ chat data w = chat_except um x w.
Proof.
  intros Hm Hne Hh Hread Hk.
  assert (Hconv : forall acc, convert_history (h1 ++ msg :: h2) acc = Raises x).
  { clear Hh. induction Hread as [| m rest Hmk _ IH]; intros acc.
    - cbn [app]. now rewrite convert_history_step, Hk.
    - cbn [app]. rewrite convert_history_step, Hmk. apply IH. }
  split; [apply Hconv |].
  unfold chat, chat_try, try_except. rewrite Hm, Hh. cbn [from_option id].
  rewrite (truthy_true _ Hne). cbn [negb]. eff. now rewrite Hconv.
Qed.

Lemma chat_try_statuses (data : ChatRequest) (w w' : World) (r : Response) :
  chat_try data w = (Returns r, w') ->
  r = mkResponse 400 (ErrorBody "No message provided")
  \/ exists resp all, r = mkResponse 200 (ChatBody resp all).
Proof.
  unfold chat_try.
  destruct (negb (truthy (default "" (message data)))).
  - eff. intros Heq. inversion Heq. now left.
  - eff.
    destruct (convert_history (default [] (conversation_history data)) [])
      as [msgs | x]; [| discriminate].
    destruct (graph_stream _ collect ([], "") w) as [[[all final] | x] w1];
      [| discriminate].
    intros Heq. inversion Heq. right. eauto.
Qed.

Lemma chat_except_statuses (um : string) (x : exn) (w : World) :
  exists r w',
    chat_except um x w = (Returns r, w')
    /\ (r = failure (exn_msg x) \/ exists resp all, r = mkResponse 200 (ChatBody resp all)).
Proof.
  unfold chat_except, try_except, datetime_now. eff.
  destruct (graph_stream _ collect_retry "" w) as [[retry | x'] w1].
  - destruct (truthy retry); eauto 8.
  - eauto.
Qed.

(** [chat] never raises: whatever the request, the model and the databases
    do, it returns a response, and the response is 400 with "No message
    provided", 200 with an answer and its messages, or 500 with an error
    text. *)
Theorem chat_always_answers (data : ChatRequest) (w : World) :
  exists r w',
    chat data w = (Returns r, w')
    /\ (r = mkResponse 400 (ErrorBody "No message provided")
        \/ (exists resp all, r = mkResponse 200 (ChatBody resp all))
        \/ (exists msg, r = mkResponse 500 (ErrorBody msg))).
Proof.
  unfold chat, try_except.
  destruct (chat_try data w) as [[r | x] w1] eqn:Htry.
  - exists r, w1. split; [reflexivity |].
    destruct (chat_try_statuses _ _ _ _ Htry) as [-> | Hok]; [now left | right; now left].
  - destruct (chat_except_statuses (default "" (message data)) x w1)
      as (r & w' & -> & [-> | Hok]).
    + exists (failure (exn_msg x)), w'. split; [reflexivity |].
      right; right. unfold failure. eauto.
    + exists r, w'. split; [reflexivity |]. right; now left.
Qed.

End MoreChat.

(** * The further properties on concrete inputs *)

(** A table that does not exist: both table tools report the error of the
    database. *)
Lemma table_tools_report_database_errors_witness :
  (exists e',
     @get_table_row_example (Stub.lib []) "nothing" (Stub.env0 [])
     = (Returns (Error "Failed to get table row example: no such table: nothing"), e')
     /\ handles e' = [mkConn 0 finance_db])
  /\ (exists e',
        @get_table_columns (Stub.lib []) "nothing" (Stub.env0 [])
        = (Returns (Error "Failed to get table columns: syntax error"), e')
        /\ handles e' = [mkConn 0 finance_db]).
Proof.
  destruct (@table_tools_report_database_errors (Stub.lib []) "nothing"
              (Stub.env0 []) eq_refl) as [Hcols Hrow].
  split.
  - exact (Hrow (Stub.OperationalError "no such table: nothing")
                Stub.transactions eq_refl).
  - exact (Hcols (Stub.OperationalError "syntax error") Stub.transactions eq_refl).
Defined.

(** The database files out of reach. *)
Lemma connect_failure_by_tool_witness :
  @get_table_columns (Stub.offline []) "transactions" (Stub.offline_env [])
  = (Returns (Error "Failed to get table columns: unable to open database file"),
     Stub.offline_env [])
  /\ @get_table_row_example (Stub.offline []) "transactions" (Stub.offline_env [])
     = (Returns (Error "Failed to get table row example: unable to open database file"),
        Stub.offline_env [])
  /\ @get_table_names (Stub.offline []) (Stub.offline_env [])
     = (Raises (Stub.OperationalError "unable to open database file"),
        Stub.offline_env []).
Proof.
  exact (@connect_failure_by_tool (Stub.offline []) "transactions"
           (Stub.offline_env [])
           (Stub.OperationalError "unable to open database file") eq_refl).
Defined.

(** A SELECT on the passengers. *)
Lemma select_runs_and_closes_witness :
  @execute_titanic_sql_query (Stub.lib []) "SELECT * FROM passengers" (Stub.env0 [])
  = (Returns (Result [[SqlInt 1; SqlText "Braund"]; [SqlInt 2; SqlText "Cumings"]]),
     @mkEnv (Stub.lib [])
       (<[titanic_db := Stub.passengers]> (@files (Stub.lib []) (Stub.env0 [])))
       [] 1 [] 0).
Proof.
  refine (proj1 (@select_runs_and_closes (Stub.lib []) "SELECT * FROM passengers"
                   "SELECT * FROM passengers" [] (Stub.env0 []) eq_refl _ _)
                _ _ eq_refl _).
  - reflexivity.
  - constructor.
  - reflexivity.
Defined.

(** A call of a tool that does not exist. *)
Lemma unknown_tool_raises_KeyError_witness :
  @dispatch (Stub.lib []) (mkToolCall "get_weather" ∅ "call_9") (Stub.env0 [])
  = (Raises (KeyError "get_weather"), Stub.env0 [])
  /\ @call_tool_loop (Stub.lib [])
       [mkToolCall "get_weather" ∅ "call_9"; Stub.list_tables] [] (Stub.env0 [])
     = (Raises (KeyError "get_weather"), Stub.env0 []).
Proof.
  apply (@unknown_tool_raises_KeyError (Stub.lib [])
           (mkToolCall "get_weather" ∅ "call_9") [Stub.list_tables] (Stub.env0 [])).
  intros Hin. apply list_elem_of_In in Hin. simpl in Hin.
  repeat (destruct Hin as [Hin | Hin]; [discriminate |]). exact Hin.
Defined.

(** The run in which the model asks for the passengers, then answers. *)
Lemma answering_run :
  exists states e',
    @pregel_states (Stub.lib Stub.answering) 25 LLM
      (mkState [HumanMessage "How many passengers?"] None)
      (Stub.env0 Stub.answering)
    = (Returns states, e').
Proof.
  destruct (@pregel_states (Stub.lib Stub.answering) 25 LLM
              (mkState [HumanMessage "How many passengers?"] None)
              (Stub.env0 Stub.answering)) as [[states | x] e'] eqn:Hrun.
  - now exists states, e'.
  - exfalso. apply (f_equal fst) in Hrun. vm_compute in Hrun. discriminate.
Defined.

Lemma run_is_append_only_witness :
  exists states e',
    @pregel_states (Stub.lib Stub.answering) 25 LLM
      (mkState [HumanMessage "How many passengers?"] None)
      (Stub.env0 Stub.answering)
    = (Returns states, e')
    /\ @growing (mkState [HumanMessage "How many passengers?"] None) states.
Proof.
  destruct answering_run as (states & e' & Hrun).
  exists states, e'. split; [exact Hrun |].
  exact (@run_is_append_only (Stub.lib Stub.answering) 25 LLM _ _ _ _ Hrun).
Defined.

Lemma completed_run_needs_no_more_fuel_witness :
  exists states e',
    @pregel_states (Stub.lib Stub.answering) 25 LLM
      (mkState [HumanMessage "How many passengers?"] None)
      (Stub.env0 Stub.answering)
    = (Returns states, e')
    /\ length states <= 25
    /\ forall k,
         @pregel_states (Stub.lib Stub.answering) (25 + k) LLM
           (mkState [HumanMessage "How many passengers?"] None)
           (Stub.env0 Stub.answering)
         = (Returns states, e').
Proof.
  destruct answering_run as (states & e' & Hrun).
  exists states, e'. split; [exact Hrun |].
  exact (@completed_run_needs_no_more_fuel (Stub.lib Stub.answering) 25 LLM _ _ _ _ Hrun).
Defined.

Lemma completed_run_answers_every_call_witness :
  exists states e' final tr,
    @pregel_states (Stub.lib Stub.answering) 25 LLM
      (mkState [HumanMessage "How many passengers?"] None)
      (Stub.env0 Stub.answering)
    = (Returns states, e')
    /\ list.last states = Some final
    /\ messages final = [HumanMessage "How many passengers?"] ++ tr
    /\ @rounds (Stub.lib Stub.answering) tr.
Proof.
  destruct answering_run as (states & e' & Hrun).
  destruct (@completed_run_answers_every_call (Stub.lib Stub.answering) 25 _ _ _ _ Hrun)
    as (final & tr & Hlast & Hm & Hr).
  exists states, e', final, tr. repeat split; assumption.
Defined.

(** A history with an entry of each kind. *)
Lemma history_is_forwarded_in_order_witness :
  convert_history
    [mkHistory (Some "user") (Some "a"); mkHistory (Some "system") None;
     mkHistory (Some "agent") (Some "b")] []
  = Returns [("user", "a"); ("assistant", "b")]
  /\ convert_to_messages [("user", "a"); ("assistant", "b"); ("user", "c")]
     = Returns [HumanMessage "a"; AIMessage "b" []; HumanMessage "c"].
Proof.
  apply (history_is_forwarded_in_order
           [mkHistory (Some "user") (Some "a"); mkHistory (Some "system") None;
            mkHistory (Some "agent") (Some "b")] "c").
  repeat constructor.
Defined.

(** A history whose second entry has no type. *)
Lemma malformed_history_goes_to_recovery_witness :
  convert_history
    ([mkHistory (Some "user") (Some "a")]
     ++ mkHistory None (Some "b") :: [mkHistory (Some "agent") (Some "c")]) []
  = Raises (KeyError "type")
  /\ @chat (Stub.lib [])
       (mkRequest (Some "hi")
          (Some ([mkHistory (Some "user") (Some "a")]
                 ++ mkHistory None (Some "b") :: [mkHistory (Some "agent") (Some "c")])))
       (Stub.world0 [])
     = @chat_except (Stub.lib []) "hi" (KeyError "type") (Stub.world0 []).
Proof.
  apply (@malformed_history_goes_to_recovery (Stub.lib [])
           (mkRequest (Some "hi")
              (Some ([mkHistory (Some "user") (Some "a")]
                     ++ mkHistory None (Some "b")
                        :: [mkHistory (Some "agent") (Some "c")])))
           (Stub.world0 []) "hi"
           [mkHistory (Some "user") (Some "a")]
           [mkHistory (Some "agent") (Some "c")]
           (mkHistory None (Some "b")) (KeyError "type")).
  - reflexivity.
  - discriminate.
  - reflexivity.
  - repeat constructor.
  - reflexivity.
Defined.
